(** * hepcrawl: the OAI-PMH harvest bookkeeping and the Hindawi record
      normaliser

    A shallow embedding of [hepcrawl/spiders/common/oaipmh_spider.py] and
    [hepcrawl/spiders/hindawi_spider.py], followed by the properties of the
    two components that the specification states.

    Conventions.
    - Python 2 byte strings are [string] (a list of 8-bit characters);
      [lower], [upper] and [isdigit] act on the ASCII range, as [str] does.
    - [None] is [None] of an [option]; a Python value whose shape varies
      (list, dict, string) is a [pyval].
    - Code that can raise returns a [result]; the exception is data.
    - The operating system, the clock and the remote server are an explicit
      [world] that the harvest code threads through. *)

From Stdlib Require Import ZArith List String Ascii Lia Bool.
From stdpp Require Import base option list gmap strings.

Local Open Scope string_scope.
Local Open Scope list_scope.
Local Open Scope Z_scope.

(** ** Python strings *)

Module PyStr.

Definition is_upper (c : ascii) : bool :=
  let n := nat_of_ascii c in (65 <=? n)%nat && (n <=? 90)%nat.

Definition is_lower (c : ascii) : bool :=
  let n := nat_of_ascii c in (97 <=? n)%nat && (n <=? 122)%nat.

(** [c.isdigit()] *)
Definition isdigit (c : ascii) : bool :=
  let n := nat_of_ascii c in (48 <=? n)%nat && (n <=? 57)%nat.

Definition lower_char (c : ascii) : ascii :=
  if is_upper c then ascii_of_nat (nat_of_ascii c + 32) else c.

Definition upper_char (c : ascii) : ascii :=
  if is_lower c then ascii_of_nat (nat_of_ascii c - 32) else c.

Fixpoint map_chars (f : ascii -> ascii) (s : string) : string :=
  match s with
  | EmptyString => EmptyString
  | String c s' => String (f c) (map_chars f s')
  end.

(** [s.lower()] and [s.upper()] *)
Definition lower : string -> string := map_chars lower_char.
Definition upper : string -> string := map_chars upper_char.

(** [needle in hay] for two strings: [needle] occurs as a substring. *)
Fixpoint contains (needle hay : string) : bool :=
  if String.prefix needle hay then true
  else match hay with
       | EmptyString => false
       | String _ hay' => contains needle hay'
       end.

(** [s.startswith(p)] and [s.endswith("/")] *)
Definition startswith (p s : string) : bool := String.prefix p s.

Fixpoint ends_with_slash (s : string) : bool :=
  match s with
  | EmptyString => false
  | String c EmptyString => Ascii.eqb c "/"
  | String _ s' => ends_with_slash s'
  end.

(** Truth value of a string and of an optional string: [None] and [''] are
    false. *)
Definition truthy (s : string) : bool :=
  match s with EmptyString => false | _ => true end.

Definition truthy_opt (o : option string) : bool :=
  match o with Some s => truthy s | None => false end.

(** ["{}".format(x)] for a value that is a string or [None]. *)
Definition format_opt (o : option string) : string :=
  match o with Some s => s | None => "None" end.

(** [c in s] for a single character. *)
Fixpoint has_char (c : ascii) (s : string) : bool :=
  match s with
  | EmptyString => false
  | String c' s' => Ascii.eqb c c' || has_char c s'
  end.

(** ["".join(parts)] *)
Definition join_empty (parts : list string) : string :=
  fold_right String.append EmptyString parts.

End PyStr.

(** ** Exceptions *)

Inductive exn : Type :=
  | TypeError (what : string)
  | KeyError (key : string)
  | ValueError (what : string)
  | IOError (errno : Z)
  | OSError (errno : Z)
  | NoLastRunToLoad (file_path : string)
  | NoRecordsMatch
  | RemoteError (what : string).

Inductive result (A : Type) : Type :=
  | Ok (a : A)
  | Raise (e : exn).

Arguments Ok {A} a.
Arguments Raise {A} e.

#[global] Instance result_ret : MRet result := fun A a => Ok a.

#[global] Instance result_bind : MBind result := fun A B k m =>
  match m with
  | Ok a => k a
  | Raise e => Raise e
  end.

(** ** SHA-1

    [hashlib.sha1(data).hexdigest()] of the Python standard library, written
    out from FIPS 180: 32-bit words are [Z] with the reduction modulo 2^32
    explicit. *)

Module SHA1.

Definition w32 (x : Z) : Z := x mod 2 ^ 32.

Definition add32 (a b : Z) : Z := w32 (a + b).

Definition rotl (n x : Z) : Z :=
  Z.lor (w32 (Z.shiftl x n)) (Z.shiftr x (32 - n)).

Definition bytes_of_string (s : string) : list Z :=
  map (fun c => Z.of_nat (nat_of_ascii c)) (list_ascii_of_string s).

(** Big-endian bytes of the low [8 * n] bits of [x]. *)
Fixpoint be_bytes (n : nat) (x : Z) : list Z :=
  match n with
  | O => []
  | S n' => be_bytes n' (Z.shiftr x 8) ++ [Z.land x 255]
  end.

Definition pad (msg : list Z) : list Z :=
  let len := Z.of_nat (length msg) in
  let zeros := Z.to_nat ((55 - len) mod 64) in
  msg ++ [128] ++ repeat 0 zeros ++ be_bytes 8 (8 * len).

Fixpoint chunks {A : Type} (fuel : nat) (n : nat) (l : list A) : list (list A) :=
  match fuel with
  | O => []
  | S fuel' =>
      match l with
      | [] => []
      | _ => firstn n l :: chunks fuel' n (skipn n l)
      end
  end.

Definition word_of_bytes (bs : list Z) : Z :=
  fold_left (fun acc b => Z.lor (Z.shiftl acc 8) b) bs 0.

Definition words_of_block (block : list Z) : list Z :=
  map word_of_bytes (chunks 16 4 block).

Definition nthw (ws : list Z) (i : nat) : Z := nth i ws 0.

(** The message schedule: 16 words extended to 80. *)
Fixpoint schedule (n : nat) (ws : list Z) : list Z :=
  match n with
  | O => ws
  | S n' =>
      let t := length ws in
      let x := Z.lxor (Z.lxor (nthw ws (t - 3)) (nthw ws (t - 8)))
                      (Z.lxor (nthw ws (t - 14)) (nthw ws (t - 16))) in
      schedule n' (ws ++ [rotl 1 x])
  end.

Definition state : Type := Z * Z * Z * Z * Z.

Definition f_k (t : nat) (b c d : Z) : Z * Z :=
  if (t <? 20)%nat then
    (Z.lor (Z.land b c) (Z.land (Z.lxor b 4294967295) d), 1518500249)
  else if (t <? 40)%nat then
    (Z.lxor (Z.lxor b c) d, 1859775393)
  else if (t <? 60)%nat then
    (Z.lor (Z.lor (Z.land b c) (Z.land b d)) (Z.land c d), 2400959708)
  else
    (Z.lxor (Z.lxor b c) d, 3395469782).

Definition round (st : state) (tw : nat * Z) : state :=
  let '(a, b, c, d, e) := st in
  let '(t, w) := tw in
  let '(f, k) := f_k t b c d in
  let temp := add32 (add32 (add32 (add32 (rotl 5 a) f) e) k) w in
  (temp, a, rotl 30 b, c, d).

Definition indexed {A : Type} (l : list A) : list (nat * A) :=
  combine (seq 0 (length l)) l.

Definition compress (h : state) (block : list Z) : state :=
  let ws := schedule 64 (words_of_block block) in
  let '(a, b, c, d, e) := fold_left round (indexed ws) h in
  let '(h0, h1, h2, h3, h4) := h in
  (add32 h0 a, add32 h1 b, add32 h2 c, add32 h3 d, add32 h4 e).

Definition init : state :=
  (1732584193, 4023233417, 2562383102, 271733878, 3285377520).

Definition digest (s : string) : state :=
  let padded := pad (bytes_of_string s) in
  fold_left compress (chunks (length padded) 64 padded) init.

Definition hex_digit (n : Z) : ascii :=
  match n with
  | 0 => "0" | 1 => "1" | 2 => "2" | 3 => "3" | 4 => "4" | 5 => "5"
  | 6 => "6" | 7 => "7" | 8 => "8" | 9 => "9" | 10 => "a" | 11 => "b"
  | 12 => "c" | 13 => "d" | 14 => "e" | _ => "f"
  end%char.

(** The [n] low hexadecimal digits of [x], most significant first. *)
Fixpoint hex (n : nat) (x : Z) : string :=
  match n with
  | O => EmptyString
  | S n' =>
      String (hex_digit (Z.shiftr x (4 * Z.of_nat n') mod 16)) (hex n' x)
  end.

Definition hexdigest (s : string) : string :=
  let '(h0, h1, h2, h3, h4) := digest s in
  hex 8 h0 +:+ hex 8 h1 +:+ hex 8 h2 +:+ hex 8 h3 +:+ hex 8 h4.

End SHA1.

(** ** Python values handed to the item loader *)

#[warnings="-register-all"]
Inductive pyval : Type :=
  | PNone
  | PStr (s : string)
  | PList (l : list pyval)
  | PDict (d : list (string * pyval)).

Definition pystr_opt (o : option string) : pyval :=
  match o with Some s => PStr s | None => PNone end.

(** ** The Hindawi record normaliser *)

Module Hindawi.

(** *** The record node

    A MARC21 record after [node.remove_namespaces()]: its [datafield]
    children in document order, each with its [subfield] children; a
    subfield carries its text-node children (none for an empty element). *)

Record subfield : Type := { sf_code : string; sf_text : list string }.
Record datafield : Type := { df_tag : string; df_subfields : list subfield }.
Record record_node : Type := { datafields : list datafield }.

(** [node.xpath("./datafield[@tag='T']")] *)
Definition xpath_datafield (tag : string) (node : record_node) : list datafield :=
  filter (fun df => df_tag df = tag) (datafields node).

(** [df.xpath("./subfield[@code='C']/text()").extract()] *)
Definition subfield_texts (code : string) (df : datafield) : list string :=
  flat_map sf_text (filter (fun sf => sf_code sf = code) (df_subfields df)).

(** [node.xpath("./datafield[@tag='T']/subfield[@code='C']/text()").extract()] *)
Definition xpath_texts (tag code : string) (node : record_node) : list string :=
  flat_map (subfield_texts code) (xpath_datafield tag node).

Definition extract_first (texts : list string) : option string := head texts.

(** The [dois] path: tag 024 fields that have a subfield 2 whose first text
    node contains [DOI]; of those, the subfield a texts. *)
Definition has_doi_marker (df : datafield) : bool :=
  existsb (fun sf =>
             bool_decide (sf_code sf = "2") &&
             match sf_text sf with
             | t :: _ => PyStr.contains "DOI" t
             | [] => false
             end) (df_subfields df).

Definition xpath_dois (node : record_node) : list string :=
  flat_map (subfield_texts "a")
           (filter (fun df => has_doi_marker df) (xpath_datafield "024" node)).

(** *** The item loader

    Modelled from the spec: [HEPLoader] and [HEPRecord]
    ([hepcrawl/loaders.py], [hepcrawl/items.py]) are not among the sources.
    The output structure of the specification has independently optional
    fields; the loader keeps, per field name, the values it was handed, in
    order. A [None] or an empty sequence adds nothing, so a field that never
    received a value is absent from the item. *)

Definition arg_to_iter (v : pyval) : list pyval :=
  match v with
  | PNone => []
  | PList l => l
  | _ => [v]
  end.

Definition add_value (field : string) (v : pyval)
    (record : gmap string (list pyval)) : gmap string (list pyval) :=
  match arg_to_iter v with
  | [] => record
  | vs => <[field := default [] (record !! field) ++ vs]> record
  end.

Definition add_xpath (field : string) (texts : list string)
    (record : gmap string (list pyval)) : gmap string (list pyval) :=
  add_value field (PList (map PStr texts)) record.

Definition load_item (record : gmap string (list pyval)) : gmap string (list pyval) :=
  record.

(** *** The order of [list(set(...))]

    Python fixes no iteration order for a set. The order is a parameter:
    any function that lists each element of its argument once. *)

Class SetOrder : Type := {
  list_of_set : list string -> list string;
  list_of_set_NoDup : forall l, NoDup (list_of_set l);
  list_of_set_elem : forall l x, x ∈ list_of_set l <-> x ∈ l
}.

(** *** The spider *)

Section Spider.

(** [HindawiSpider.name] *)
Definition name : string := "hindawi".

(** [OA_LICENSES] comes from [hepcrawl/mappings.py] and [re.search] from the
    standard library; both are parameters. *)
Context (OA_LICENSES : list string).
Context (re_search : string -> string -> bool).
Context {order : SetOrder}.

Definition get_affiliations (author : datafield) : list pyval :=
  let affiliations_raw := subfield_texts "u" author in
  fold_left (fun affiliations aff => affiliations ++ [PDict [("value", PStr aff)]])
            affiliations_raw [].

Definition get_authors (node : record_node) : list pyval :=
  let authors_first := xpath_datafield "100" node in
  let authors_others := xpath_datafield "700" node in
  let authors_raw := authors_first ++ authors_others in
  fold_left
    (fun authors author =>
       authors ++
       [PDict [("raw_name", pystr_opt (extract_first (subfield_texts "a" author)));
               ("affiliations", PList (get_affiliations author))]])
    authors_raw [].

Definition differentiate_urls (urls_in_record : list string)
    : list string * list string * list string :=
  fold_left
    (fun '(pdf_links, xml_links, splash_links) link =>
       if PyStr.contains "pdf" (PyStr.lower link) then
         (pdf_links ++ [link], xml_links, splash_links)
       else if PyStr.contains "xml" (PyStr.lower link) then
         (pdf_links, xml_links ++ [link], splash_links)
       else if PyStr.contains "dx.doi.org" (PyStr.lower link) then
         (pdf_links, xml_links, splash_links ++ [link])
       else (pdf_links, xml_links, splash_links))
    urls_in_record ([], [], []).

Definition get_urls_in_record (node : record_node)
    : list string * list string * list string :=
  let marc_856 := xpath_texts "856" "u" node in
  let marc_FFT := xpath_texts "FFT" "a" node in
  let all_links := list_of_set (marc_856 ++ marc_FFT) in
  differentiate_urls all_links.

(** The table [licenses] of [_get_license]: identifier, title, url. *)
Definition licenses : list (string * (string * string)) :=
  [("CC-BY-3.0",
    ("Creative Commons Attribution 3.0",
     "http://creativecommons.org/licenses/by/3.0/"))].

(** [x in s] where [s] is a string and [x] a string or [None]: [None] on the
    left raises. *)
Definition py_in (x : option string) (s : string) : result bool :=
  match x with
  | Some x' => Ok (PyStr.contains x' s)
  | None => Raise (TypeError "'in <string>' requires string as left operand, not NoneType")
  end.

(** The first loop of [_get_license]: the condition is
    [(license_str and license_str in lic) or license_str in title]. *)
Fixpoint match_license (table : list (string * (string * string)))
    (license_str : option string) : result (option string) :=
  match table with
  | [] => Ok license_str
  | (lic, (title, _)) :: rest =>
      first_ ← (if PyStr.truthy_opt license_str then py_in license_str lic
                else Ok false);
      cond ← (if first_ : bool then Ok true else py_in license_str title);
      if cond : bool then Ok (Some lic) else match_license rest license_str
  end.

(** The second loop: [re.search(pattern, license_str)] over [OA_LICENSES]. *)
Fixpoint match_openaccess (patterns : list string) (license_str : option string)
    : result bool :=
  match patterns with
  | [] => Ok false
  | pattern :: rest =>
      match license_str with
      | None => Raise (TypeError "expected string or buffer")
      | Some s =>
          if re_search pattern s then Ok true
          else match_openaccess rest license_str
      end
  end.

Definition _get_license (node : record_node)
    : result (option string * option string * bool) :=
  let license_str := extract_first (xpath_texts "540" "a" node) in
  let license_url := extract_first (xpath_texts "540" "u" node) in
  license_str ← match_license licenses license_str;
  openaccess ← match_openaccess OA_LICENSES license_str;
  Ok (license_str, license_url, openaccess).

(** [get_copyright]: iterating over [None] raises. *)
Definition get_copyright (node : record_node) : result (option string * string) :=
  let copyright_raw := extract_first (xpath_texts "542" "f" node) in
  match copyright_raw with
  | None => Raise (TypeError "'NoneType' object is not iterable")
  | Some raw =>
      let cr_year :=
        PyStr.join_empty
          (map (fun i => String i EmptyString)
               (filter (fun i => PyStr.isdigit i = true) (list_ascii_of_string raw))) in
      Ok (copyright_raw, cr_year)
  end.

Definition create_fft_file (file_path file_access file_type : string) : pyval :=
  PDict [("access", PStr file_access);
         ("description", PStr (PyStr.upper name));
         ("url", PStr file_path);
         ("type", PStr file_type)].

Definition parse_node (node : record_node) : result (gmap string (list pyval)) :=
  let record : gmap string (list pyval) := ∅ in
  let record := add_value "authors" (PList (get_authors node)) record in
  let record := add_xpath "abstract" (xpath_texts "520" "a" node) record in
  let record := add_xpath "title" (xpath_texts "245" "a" node) record in
  let record := add_xpath "date_published" (xpath_texts "260" "c" node) record in
  let record := add_xpath "page_nr" (xpath_texts "300" "a" node) record in
  let record := add_xpath "dois" (xpath_dois node) record in
  let record := add_xpath "journal_title" (xpath_texts "773" "p" node) record in
  let record := add_xpath "journal_volume" (xpath_texts "773" "a" node) record in
  let record := add_xpath "journal_year" (xpath_texts "773" "y" node) record in
  let record := add_xpath "journal_issue" (xpath_texts "773" "n" node) record in
  let record := add_xpath "journal_pages" (xpath_texts "773" "c" node) record in
  '(cr_statement, cr_year) ← get_copyright node;
  let record := add_value "copyright_statement" (pystr_opt cr_statement) record in
  let record := add_value "copyright_year" (PStr cr_year) record in
  '(pub_license, pub_license_url, openaccess) ← _get_license node;
  let record :=
    if PyStr.truthy_opt pub_license then
      let record := add_value "license" (pystr_opt pub_license) record in
      let record := add_value "license_url" (pystr_opt pub_license_url) record in
      if openaccess : bool then add_value "license_type" (PStr "open-access") record
      else record
    else record in
  let '(pdf_links, xml_links, splash_links) := get_urls_in_record node in
  let record := add_value "urls" (PList (map PStr splash_links)) record in
  let record := add_value "file_urls" (PList (map PStr pdf_links)) record in
  let record :=
    match xml_links with
    | [] => record
    | _ => add_value "additional_files"
             (PList (map (fun xml => create_fft_file xml "INSPIRE-HIDDEN" "Fulltext")
                         xml_links)) record
    end in
  let record := add_value "collections"
                  (PList [PStr "HEP"; PStr "Citeable"; PStr "Published"]) record in
  let record := add_xpath "source" (xpath_texts "260" "b" node) record in
  Ok (load_item record).

End Spider.

(** *** The classification of a link, in the words of the specification *)

Inductive bucket : Type := PdfLink | XmlLink | SplashLink | Discarded.

#[global] Instance bucket_eq_dec : EqDecision bucket.
Proof. solve_decision. Defined.

Definition spec_classify (link : string) : bucket :=
  if PyStr.contains "pdf" (PyStr.lower link) then PdfLink
  else if PyStr.contains "xml" (PyStr.lower link) then XmlLink
  else if PyStr.contains "dx.doi.org" (PyStr.lower link) then SplashLink
  else Discarded.

(** The digit characters of a statement, in order. *)
Definition spec_digits (statement : string) : string :=
  string_of_list_ascii
    (List.filter PyStr.isdigit (list_ascii_of_string statement)).

(** The entry of the authors list that an author field gives. *)
Definition spec_author (author : datafield) : pyval :=
  PDict [("raw_name", pystr_opt (head (subfield_texts "a" author)));
         ("affiliations",
          PList (map (fun v => PDict [("value", PStr v)]) (subfield_texts "u" author)))].

(** Parameters for examples: the elements of the finite set, as stdpp lists
    them; patterns anchored at the start, matched literally. *)
Definition gset_listing (l : list string) : list string :=
  elements (C := gset string) (list_to_set l).

Definition re_search_anchored (pattern s : string) : bool :=
  match pattern with
  | String "^" literal => String.prefix literal s
  | _ => PyStr.contains pattern s
  end.

Definition gset_order : SetOrder.
Proof.
  refine {| list_of_set := gset_listing |}.
  - intros l. unfold gset_listing. apply NoDup_elements.
  - intros l x. unfold gset_listing. rewrite elem_of_elements.
    apply elem_of_list_to_set.
Defined.

(** A record with nothing but a copyright statement. *)
Definition copyright_node (statement : string) : record_node :=
  {| datafields :=
       [{| df_tag := "542";
           df_subfields := [{| sf_code := "f"; sf_text := [statement] |}] |}] |}.

Definition OA_LICENSES_example : list string := ["^CC-BY"].

Definition example_node : record_node :=
  {| datafields :=
       [{| df_tag := "100";
           df_subfields := [{| sf_code := "a"; sf_text := ["Doe, J."] |};
                            {| sf_code := "u"; sf_text := ["CERN"] |}] |};
        {| df_tag := "540";
           df_subfields := [{| sf_code := "a"; sf_text := ["Creative Commons Attribution 3.0"] |}] |};
        {| df_tag := "542";
           df_subfields := [{| sf_code := "f"; sf_text := ["Copyright 2016, Author"] |}] |};
        {| df_tag := "856";
           df_subfields := [{| sf_code := "u"; sf_text := ["http://x/b.xml"] |};
                            {| sf_code := "u"; sf_text := ["http://x/a.pdf"] |}] |}] |}.

Definition example_item : gmap string (list pyval) :=
  match parse_node (order := gset_order) OA_LICENSES_example re_search_anchored
                   example_node with
  | Ok item => item
  | Raise _ => ∅
  end.

(** The label that the first loop of [_get_license] leaves for a label that
    is there. *)
Definition normalised_label (label : string) : string :=
  if PyStr.contains label "CC-BY-3.0"
     || PyStr.contains label "Creative Commons Attribution 3.0"
  then "CC-BY-3.0" else label.

(** What the loader holds under a field that was written once. *)
Definition loaded (v : pyval) : option (list pyval) :=
  match arg_to_iter v with
  | [] => None
  | vs => Some vs
  end.

Definition loaded_texts (texts : list string) : option (list pyval) :=
  loaded (PList (map PStr texts)).


(** A node whose only field carries the given links, one per subfield. *)
Definition links_node (tag code : string) (links : list string) : record_node :=
  {| datafields :=
       [{| df_tag := tag;
           df_subfields := map (fun link => {| sf_code := code; sf_text := [link] |}) links |}] |}.

End Hindawi.

(** ** The OAI-PMH harvest bookkeeping *)

Module OAIPMH.

(** *** Paths ([os.path], POSIX flavour) *)

Definition join2 (path b : string) : string :=
  if PyStr.startswith "/" b then b
  else if negb (PyStr.truthy path) || PyStr.ends_with_slash path then path +:+ b
  else path +:+ "/" +:+ b.

(** [path.join(a, b, c)] *)
Definition path_join (a b c : string) : string := join2 (join2 a b) c.

Fixpoint drop_while {A : Type} (f : A -> bool) (l : list A) : list A :=
  match l with
  | [] => []
  | x :: l' => if f x then drop_while f l' else l
  end.

Definition is_slash (c : ascii) : bool := Ascii.eqb c "/".

(** [path.dirname(p)]: everything up to the last slash, with trailing
    slashes stripped unless nothing else is left. *)
Definition dirname (p : string) : string :=
  let head := drop_while (fun c => negb (is_slash c)) (rev (list_ascii_of_string p)) in
  if forallb is_slash head then string_of_list_ascii (rev head)
  else string_of_list_ascii (rev (drop_while is_slash head)).

(** What [join2] puts before a component that does not start with a slash. *)
Definition join_base (path : string) : string :=
  if negb (PyStr.truthy path) || PyStr.ends_with_slash path then path
  else path +:+ "/".

(** *** Dates ([datetime]) *)

Record datetime : Type := {
  year : Z; month : Z; day : Z;
  hour : Z; minute : Z; second : Z; microsecond : Z
}.

Definition digit_char (n : Z) : ascii := ascii_of_nat (48 + Z.to_nat (n mod 10)).

(** The [w] low decimal digits of [n], zero padded: [%0wd] for a number of
    at most [w] digits, which the fields of a [datetime] are. *)
Fixpoint zfill (w : nat) (n : Z) : string :=
  match w with
  | O => EmptyString
  | S w' => zfill w' (n / 10) +:+ String (digit_char n) EmptyString
  end.

Definition date_part (t : datetime) : string :=
  zfill 4 (year t) +:+ "-" +:+ zfill 2 (month t) +:+ "-" +:+ zfill 2 (day t).

(** [t.isoformat()] *)
Definition isoformat (t : datetime) : string :=
  date_part t +:+ "T" +:+ zfill 2 (hour t) +:+ ":" +:+ zfill 2 (minute t)
    +:+ ":" +:+ zfill 2 (second t)
    +:+ (if microsecond t =? 0 then "" else "." +:+ zfill 6 (microsecond t)).

(** [t.strftime('%Y-%m-%d')]; Python 2 refuses years before 1900. *)
Definition strftime_Ymd (t : datetime) : result string :=
  if year t <? 1900 then Raise (ValueError "year is before 1900")
  else Ok (date_part t).




(** *** JSON documents and files *)

Inductive jval : Type :=
  | JNull
  | JStr (s : string).

Definition json_opt (o : option string) : jval :=
  match o with Some s => JStr s | None => JNull end.

(** Truth value of a loaded JSON value. *)
Definition jtruthy (v : jval) : bool :=
  match v with JNull => false | JStr s => PyStr.truthy s end.

(** What a regular file holds: the JSON object that [json.dump] wrote (the
    serialised text is not modelled, [json.load] gives the object back), or
    bytes that are not JSON. *)
Inductive file_content : Type :=
  | JsonDoc (d : gmap string jval)
  | NotJson (raw : string).

Definition json_load (c : file_content) : result (gmap string jval) :=
  match c with
  | JsonDoc d => Ok d
  | NotJson _ => Raise (ValueError "No JSON object could be decoded")
  end.

(** [d[key]] *)
Definition getitem (d : gmap string jval) (key : string) : result jval :=
  match d !! key with
  | Some v => Ok v
  | None => Raise (KeyError key)
  end.

(** *** The world: file system, clock, remote server *)

Definition NO_SUCH_FILE_OR_DIR : Z := 2.
Definition FILE_EXISTS : Z := 17.
Definition EISDIR : Z := 21.
Definition ENOTDIR : Z := 20.

Inductive io_op : Type :=
  | OpenRead (p : string)
  | OpenWrite (p : string)
  | Makedirs (p : string).

(** What [sickle.ListRecords] does: it raises when it is called, or it gives
    an iterator over the raw records, which may fail once they are
    exhausted (a later page of the listing cannot be fetched). *)
Inductive list_records : Type :=
  | LRRaise (e : exn)
  | LRIter (records : list string) (failure : option exn).

Record world : Type := {
  files : gmap string file_content;
  dirs : gset string;
  (** an error the operating system reports for an operation, whatever the
      files are: permissions, a full disk, a failing device *)
  io_fault : io_op -> option Z;
  (** successive readings of [datetime.utcnow()] *)
  clock : nat -> datetime;
  ticks : nat;
  (** the server at a url, asked for metadataPrefix, set, from, until *)
  remote : string -> string -> option string -> option string -> option string
           -> list_records
}.

Definition with_files (w : world) (fs : gmap string file_content) : world :=
  {| files := fs; dirs := dirs w; io_fault := io_fault w;
     clock := clock w; ticks := ticks w; remote := remote w |}.

Definition with_dirs (w : world) (ds : gset string) : world :=
  {| files := files w; dirs := ds; io_fault := io_fault w;
     clock := clock w; ticks := ticks w; remote := remote w |}.

Definition tick (w : world) : world :=
  {| files := files w; dirs := dirs w; io_fault := io_fault w;
     clock := clock w; ticks := S (ticks w); remote := remote w |}.

(** Code that acts on the world and may raise: the world it leaves is there
    in both cases. *)
Definition io (A : Type) : Type := world -> result A * world.

#[global] Instance io_ret : MRet io := fun A a w => (Ok a, w).

#[global] Instance io_bind : MBind io := fun A B k m w =>
  match m w with
  | (Ok a, w') => k a w'
  | (Raise e, w') => (Raise e, w')
  end.

Definition raise {A : Type} (e : exn) : io A := fun w => (Raise e, w).

Definition lift {A : Type} (r : result A) : io A := fun w => (r, w).

(** [try: body  except: handler] *)
Definition try_except {A : Type} (body : io A) (handler : exn -> io A) : io A :=
  fun w =>
    match body w with
    | (Raise e, w') => handler e w'
    | r => r
    end.

(** [datetime.utcnow()] *)
Definition utcnow : io datetime :=
  fun w => (Ok (clock w (ticks w)), tick w).

(** [open(p)] and reading the file. *)
Definition open_read (p : string) : io file_content :=
  fun w =>
    match io_fault w (OpenRead p) with
    | Some errno => (Raise (IOError errno), w)
    | None =>
        match files w !! p with
        | Some c => (Ok c, w)
        | None =>
            if bool_decide (p ∈ dirs w) then (Raise (IOError EISDIR), w)
            else (Raise (IOError NO_SUCH_FILE_OR_DIR), w)
        end
    end.

(** [open(p, 'w')] and writing the file: the directory must be there. *)
Definition open_write (p : string) (c : file_content) : io unit :=
  fun w =>
    match io_fault w (OpenWrite p) with
    | Some errno => (Raise (IOError errno), w)
    | None =>
        if bool_decide (p ∈ dirs w) then (Raise (IOError EISDIR), w)
        else if bool_decide (dirname p ∈ dirs w)
        then (Ok tt, with_files w (<[p := c]> (files w)))
        else if bool_decide (is_Some (files w !! dirname p))
        then (Raise (IOError ENOTDIR), w)
        else (Raise (IOError NO_SUCH_FILE_OR_DIR), w)
    end.

(** [makedirs(d)]: fails when [d] is already there. *)
Definition makedirs (d : string) : io unit :=
  fun w =>
    match io_fault w (Makedirs d) with
    | Some errno => (Raise (OSError errno), w)
    | None =>
        if negb (PyStr.truthy d) then (Raise (OSError NO_SUCH_FILE_OR_DIR), w)
        else if bool_decide (d ∈ dirs w) || bool_decide (is_Some (files w !! d))
        then (Raise (OSError FILE_EXISTS), w)
        else (Ok tt, with_dirs w ({[ d ]} ∪ dirs w))
    end.

(** *** The spider *)

Record spider : Type := {
  name : string;
  (** [self.settings['LAST_RUNS_PATH']] *)
  LAST_RUNS_PATH : string;
  url : string;
  metadata_prefix : string;
  oai_set : option string;
  from_date : option string;
  until_date : option string
}.

Definition with_from_date (self : spider) (d : option string) : spider :=
  {| name := name self; LAST_RUNS_PATH := LAST_RUNS_PATH self; url := url self;
     metadata_prefix := metadata_prefix self; oai_set := oai_set self;
     from_date := d; until_date := until_date self |}.

(** The abstract method [parse_record]: what a concrete spider provides. *)
Class RecordParser (Item : Type) : Type :=
  parse_record : string -> result Item.

Definition _make_alias (self : spider) : string :=
  "metadataPrefix=" +:+ metadata_prefix self +:+ "&set="
    +:+ PyStr.format_opt (oai_set self).

Definition _last_run_file_path (self : spider) : string :=
  let lasts_run_path := LAST_RUNS_PATH self in
  let file_name := SHA1.hexdigest (_make_alias self) +:+ ".json" in
  path_join lasts_run_path (name self) file_name.

Definition _load_last_run (self : spider) : io (gmap string jval) :=
  let file_path := _last_run_file_path self in
  try_except
    (f ← open_read file_path;
     lift (json_load f))
    (fun exc =>
       match exc with
       | IOError errno =>
           if errno =? NO_SUCH_FILE_OR_DIR then raise (NoLastRunToLoad file_path)
           else raise exc
       | _ => raise exc
       end).

Definition last_run_info (self : spider) (started_at finished_at : datetime)
    : gmap string jval :=
  <["spider" := JStr (name self)]>
  (<["url" := JStr (url self)]>
  (<["metadata_prefix" := JStr (metadata_prefix self)]>
  (<["set" := json_opt (oai_set self)]>
  (<["from_date" := json_opt (from_date self)]>
  (<["until_date" := json_opt (until_date self)]>
  (<["last_run_started_at" := JStr (isoformat started_at)]>
  (<["last_run_finished_at" := JStr (isoformat finished_at)]> ∅))))))).

Definition _save_run (self : spider) (started_at : datetime) : io unit :=
  finished_at ← utcnow;
  let last_run_info := last_run_info self started_at finished_at in
  let file_path := _last_run_file_path self in
  _ ← try_except
        (makedirs (dirname file_path))
        (fun exc =>
           match exc with
           | OSError errno =>
               if negb (errno =? FILE_EXISTS) then raise exc else mret tt
           | _ => raise exc
           end);
  open_write file_path (JsonDoc last_run_info).

Section Harvest.

(** [dateutil.parser.parse] is a library function; it is a parameter. *)
Context (dateparser_parse : string -> result datetime).
Context {Item : Type} {parser : RecordParser Item}.

Definition dateparser_parse_value (v : jval) : result datetime :=
  match v with
  | JStr s => dateparser_parse s
  | JNull => Raise (TypeError "Parser must be a string or character stream, not NoneType")
  end.

Definition _resume_from (self : spider) : io (option string) :=
  try_except
    (last_run ← _load_last_run self;
     until ← lift (getitem last_run "until_date");
     resume_at ← (if jtruthy until then mret until
                  else lift (getitem last_run "last_run_finished_at"));
     date_parsed ← lift (dateparser_parse_value resume_at);
     formatted ← lift (strftime_Ymd date_parsed);
     mret (Some formatted))
    (fun exc =>
       match exc with
       | NoLastRunToLoad _ => mret None
       | _ => raise exc
       end).

(** The start date of the harvest: [self.from_date or self._resume_from]. *)
Definition resolve_start_date (self : spider) : io (option string) :=
  if PyStr.truthy_opt (from_date self) then mret (from_date self)
  else _resume_from self.

(** [start_requests] up to its [yield]: the spider with its start date
    resolved, the time the run started, the url of the request. *)
Definition start_requests_begin (self : spider) : io (spider * datetime * string) :=
  from ← resolve_start_date self;
  let self := with_from_date self from in
  started_at ← utcnow;
  mret (self, started_at, "oaipmh+" +:+ url self).

(** [start_requests] once the generator is resumed after its [yield]. *)
Definition start_requests_resume (self : spider) (started_at : datetime) : io unit :=
  now ← utcnow;
  _save_run self started_at.

(** The loop of [parse]: the items yielded, and the exception that ended the
    generator, if one did. *)
Fixpoint parse_records (records : list string) (failure : option exn)
    : list Item * option exn :=
  match records with
  | [] => ([], failure)
  | record :: rest =>
      match parse_record record with
      | Raise e => ([], Some e)
      | Ok item =>
          let '(items, r) := parse_records rest failure in
          (item :: items, r)
      end
  end.

Definition parse (self : spider) (w : world) : list Item * option exn :=
  match remote w (url self) (metadata_prefix self) (oai_set self)
               (from_date self) (until_date self) with
  | LRRaise NoRecordsMatch => ([], None)
  | LRRaise e => ([], Some e)
  | LRIter records failure => parse_records records failure
  end.

(** How a harvest ends: the items it gave, the exception that stopped it
    if one did, and the world it leaves. *)
Record outcome : Type := {
  items : list Item;
  failure : option exn;
  final : world
}.

(** Modelled from the spec: the scheduler that drives the two generators is
    the crawling framework, which is not among the sources. The
    specification gives the cycle of one harvest as
    [INIT -> determine_from_date -> fetch_and_parse -> persist_run -> DONE]:
    the request is issued, its response is parsed to the end, and only then
    is [start_requests] resumed; an exception that leaves either generator
    ends the harvest. *)
Definition harvest (self : spider) (w : world) : outcome :=
  match start_requests_begin self w with
  | (Raise e, w) => {| items := []; failure := Some e; final := w |}
  | (Ok (self, started_at, _), w) =>
      match parse self w with
      | (items, Some e) => {| items := items; failure := Some e; final := w |}
      | (items, None) =>
          match start_requests_resume self started_at w with
          | (Ok _, w) => {| items := items; failure := None; final := w |}
          | (Raise e, w) => {| items := items; failure := Some e; final := w |}
          end
      end
  end.

End Harvest.

(** *** Notions of the specification *)

(** A string of the form [YYYY-MM-DD]. *)
Definition is_Ymd (s : string) : bool :=
  match list_ascii_of_string s with
  | [y1; y2; y3; y4; s1; m1; m2; s2; d1; d2] =>
      forallb PyStr.isdigit [y1; y2; y3; y4; m1; m2; d1; d2]
      && Ascii.eqb s1 "-" && Ascii.eqb s2 "-"
  | _ => false
  end.



(** A metadata prefix and a set that keep the alias unambiguous: no [&] in
    the prefix, and no set that is literally named [None]. *)
Definition unambiguous (self : spider) : Prop :=
  PyStr.has_char "&"%char (metadata_prefix self) = false /\
  oai_set self <> Some "None".

(** *** Parameters for examples *)

(** A parser for the dates that [isoformat] writes, and for plain
    [YYYY-MM-DD] dates. *)
Definition digit_value (c : ascii) : option Z :=
  if PyStr.isdigit c then Some (Z.of_nat (nat_of_ascii c) - 48) else None.

Fixpoint read_number (n : nat) (acc : Z) (s : string) : option (Z * string) :=
  match n with
  | O => Some (acc, s)
  | S n' =>
      match s with
      | String c s' => d ← digit_value c; read_number n' (10 * acc + d) s'
      | EmptyString => None
      end
  end.

Definition expect (c : ascii) (s : string) : option string :=
  match s with
  | String c' s' => if Ascii.eqb c c' then Some s' else None
  | EmptyString => None
  end.

Definition iso_parse_time (y m d : Z) (s : string) : option datetime :=
  s ← expect "T" s;
  '(h, s) ← read_number 2 0 s;
  s ← expect ":" s;
  '(mi, s) ← read_number 2 0 s;
  s ← expect ":" s;
  '(sec, s) ← read_number 2 0 s;
  match s with
  | EmptyString =>
      Some {| year := y; month := m; day := d; hour := h; minute := mi;
              second := sec; microsecond := 0 |}
  | _ =>
      s ← expect "." s;
      '(us, s) ← read_number 6 0 s;
      match s with
      | EmptyString =>
          Some {| year := y; month := m; day := d; hour := h; minute := mi;
                  second := sec; microsecond := us |}
      | _ => None
      end
  end.

Definition iso_parse (s : string) : result datetime :=
  let parsed :=
    '(y, s) ← read_number 4 0 s;
    s ← expect "-" s;
    '(m, s) ← read_number 2 0 s;
    s ← expect "-" s;
    '(d, s) ← read_number 2 0 s;
    match s with
    | EmptyString =>
        Some {| year := y; month := m; day := d; hour := 0; minute := 0;
                second := 0; microsecond := 0 |}
    | _ => iso_parse_time y m d s
    end in
  match parsed with
  | Some t => Ok t
  | None => Raise (ValueError "Unknown string format")
  end.

(** A spider whose items are the raw records. *)
Definition raw_parser : RecordParser string := fun record => Ok record.

Definition example_spider : spider :=
  {| name := "OAI-PMH"; LAST_RUNS_PATH := "/var/lib/last_runs";
     url := "http://export.arxiv.org/oai2"; metadata_prefix := "oai_dc";
     oai_set := None; from_date := None; until_date := None |}.

(** Readings one second apart, from 2017-03-09 01:02:00 on. *)
Definition example_clock (n : nat) : datetime :=
  {| year := 2017; month := 3; day := 9; hour := 1; minute := 2;
     second := Z.of_nat (Nat.min n 59); microsecond := 0 |}.

(** An empty disk, and a server that answers as [response]. *)
Definition example_world (response : list_records) : world :=
  {| files := ∅; dirs := ∅; io_fault := fun _ => None;
     clock := example_clock; ticks := 0;
     remote := fun _ _ _ _ _ => response |}.

Definition spider_without_set : spider := example_spider.

Definition spider_with_set_named_None : spider :=
  {| name := "OAI-PMH"; LAST_RUNS_PATH := "/var/lib/last_runs";
     url := "http://export.arxiv.org/oai2"; metadata_prefix := "oai_dc";
     oai_set := Some "None"; from_date := None; until_date := None |}.

Definition spider_with_set (prefix set : string) : spider :=
  {| name := "OAI-PMH"; LAST_RUNS_PATH := "/var/lib/last_runs";
     url := "http://export.arxiv.org/oai2"; metadata_prefix := prefix;
     oai_set := Some set; from_date := None; until_date := None |}.

(** The world once a first run, started at the first reading of the
    clock, has been saved. *)
Definition world_after_first_run : world :=
  snd (start_requests_resume example_spider (example_clock 0)
         (tick (example_world (LRRaise NoRecordsMatch)))).

(** A disk on which nothing can be opened or made: permission denied. *)
Definition EACCES : Z := 13.

Definition locked_world : world :=
  {| files := ∅; dirs := ∅; io_fault := fun _ => Some EACCES;
     clock := example_clock; ticks := 0;
     remote := fun _ _ _ _ _ => LRRaise NoRecordsMatch |}.

(** The text a saved run leaves to resume from: its until_date if it has
    one, else the time it finished. *)
Definition resume_text (self : spider) (finished_at : datetime) : string :=
  match until_date self with
  | Some until => if PyStr.truthy until then until else isoformat finished_at
  | None => isoformat finished_at
  end.

(** A disk whose run file is not JSON. *)
Definition corrupt_world : world :=
  {| files := {[ _last_run_file_path example_spider := NotJson "{" ]};
     dirs := {[ dirname (_last_run_file_path example_spider) ]};
     io_fault := fun _ => None;
     clock := example_clock; ticks := 0;
     remote := fun _ _ _ _ _ => LRRaise NoRecordsMatch |}.

(** A spider that refuses an empty record. *)
Definition picky_parser : RecordParser string :=
  fun record =>
    match record with
    | EmptyString => Raise (ValueError "empty record")
    | _ => Ok record
    end.

End OAIPMH.

(** * Properties *)

(** ** SHA-1 test vectors (FIPS 180) *)

Example sha1_abc :
  SHA1.hexdigest "abc" = "a9993e364706816aba3e25717850c26c9cd0d89d".
Proof. vm_compute. reflexivity. Qed.

Example sha1_empty :
  SHA1.hexdigest "" = "da39a3ee5e6b4b0d3255bfef95601890afd80709".
Proof. vm_compute. reflexivity. Qed.

Example sha1_two_blocks :
  SHA1.hexdigest "abcdbcdecdefdefgefghfghighijhijkijkljklmklmnlmnomnopnopq"
  = "84983e441c3bd26ebaae4aa1f95129e5e54670f1".
Proof. vm_compute. reflexivity. Qed.

(** ** The record normaliser *)

Module HindawiFacts.

Import Hindawi.

(** A loop that appends one value per element builds the mapped list. *)
Lemma fold_left_snoc {A B : Type} (f : A -> B) (l : list A) (acc : list B) :
  fold_left (fun acc x => acc ++ [f x]) l acc = acc ++ map f l.
Proof.
  revert acc. induction l as [|x l IH]; intros acc; simpl.
  - by rewrite app_nil_r.
  - rewrite IH, <- app_assoc. reflexivity.
Qed.

(** *** Authors *)

Lemma get_affiliations_map (author : datafield) :
  get_affiliations author
  = map (fun v => PDict [("value", PStr v)]) (subfield_texts "u" author).
Proof. unfold get_affiliations. apply (fold_left_snoc _ _ []). Qed.

Lemma get_authors_map (node : record_node) :
  get_authors node
  = map spec_author (xpath_datafield "100" node ++ xpath_datafield "700" node).
Proof.
  unfold get_authors. rewrite (fold_left_snoc _ _ []). simpl.
  apply map_ext. intros author. unfold spec_author, extract_first.
  by rewrite get_affiliations_map.
Qed.

(** C9. The authors list has one entry per author field: the tag 100 fields
    in document order, then the tag 700 fields in document order. The entry
    of a field is made of the first text of its subfield a, or None when
    there is none (the entry is still there), and of one single-key
    structure per text of its subfields u, in order. *)
Theorem authors_one_entry_per_field (node : record_node) :
  let author_fields := xpath_datafield "100" node ++ xpath_datafield "700" node in
  length (get_authors node) = length author_fields /\
  (forall (i : nat) (author : datafield),
      author_fields !! i = Some author ->
      exists affiliations,
        get_authors node !! i
        = Some (PDict [("raw_name", pystr_opt (head (subfield_texts "a" author)));
                       ("affiliations", PList affiliations)]) /\
        length affiliations = length (subfield_texts "u" author) /\
        (forall (j : nat) (v : string),
            subfield_texts "u" author !! j = Some v ->
            affiliations !! j = Some (PDict [("value", PStr v)])) /\
        (subfield_texts "a" author = [] ->
         get_authors node !! i
         = Some (PDict [("raw_name", PNone); ("affiliations", PList affiliations)]))).
Proof.
  intros author_fields. rewrite get_authors_map. fold author_fields. split.
  - apply length_map.
  - intros i author Hi.
    exists (map (fun v => PDict [("value", PStr v)]) (subfield_texts "u" author)).
    assert (Hentry : map spec_author author_fields !! i = Some (spec_author author)).
    { change (map spec_author author_fields) with (spec_author <$> author_fields).
      by rewrite list_lookup_fmap, Hi. }
    repeat split.
    + exact Hentry.
    + apply length_map.
    + intros j v Hj.
      change (map ?f ?l) with (f <$> l). by rewrite list_lookup_fmap, Hj.
    + intros Hno. rewrite Hentry. unfold spec_author. by rewrite Hno.
Qed.

(** *** URL classification *)

Lemma differentiate_urls_fold (urls pdf xml splash : list string) :
  fold_left
    (fun '(pdf_links, xml_links, splash_links) link =>
       if PyStr.contains "pdf" (PyStr.lower link) then
         (pdf_links ++ [link], xml_links, splash_links)
       else if PyStr.contains "xml" (PyStr.lower link) then
         (pdf_links, xml_links ++ [link], splash_links)
       else if PyStr.contains "dx.doi.org" (PyStr.lower link) then
         (pdf_links, xml_links, splash_links ++ [link])
       else (pdf_links, xml_links, splash_links))
    urls (pdf, xml, splash)
  = (pdf ++ filter (fun link => spec_classify link = PdfLink) urls,
     xml ++ filter (fun link => spec_classify link = XmlLink) urls,
     splash ++ filter (fun link => spec_classify link = SplashLink) urls).
Proof.
  revert pdf xml splash.
  induction urls as [|link urls IH]; intros pdf xml splash.
  - simpl. by rewrite !app_nil_r.
  - cbn [fold_left]. rewrite !filter_cons.
    pose proof (eq_refl (spec_classify link)) as Hc.
    unfold spec_classify at 2 in Hc.
    destruct (PyStr.contains "pdf" (PyStr.lower link));
      [|destruct (PyStr.contains "xml" (PyStr.lower link));
        [|destruct (PyStr.contains "dx.doi.org" (PyStr.lower link))]];
      rewrite IH; repeat case_decide; try congruence;
      by rewrite <- ?app_assoc.
Qed.

Lemma differentiate_urls_filter (urls : list string) :
  differentiate_urls urls
  = (filter (fun link => spec_classify link = PdfLink) urls,
     filter (fun link => spec_classify link = XmlLink) urls,
     filter (fun link => spec_classify link = SplashLink) urls).
Proof. unfold differentiate_urls. by rewrite differentiate_urls_fold. Qed.

(** C4. The links of the two tag families are listed once each, in some
    order; each bucket is the part of that listing whose links classify to
    it, so a link is in exactly the bucket that the priority rule (pdf, then
    xml, then dx.doi.org, on the lower-cased link) gives it, and in none when
    the rule discards it. *)
Theorem url_classification {order : SetOrder} (node : record_node) :
  let urls := xpath_texts "856" "u" node ++ xpath_texts "FFT" "a" node in
  exists all_links pdf_links xml_links splash_links,
    get_urls_in_record node = (pdf_links, xml_links, splash_links) /\
    NoDup all_links /\
    (forall link, link ∈ all_links <-> link ∈ urls) /\
    pdf_links = filter (fun link => spec_classify link = PdfLink) all_links /\
    xml_links = filter (fun link => spec_classify link = XmlLink) all_links /\
    splash_links = filter (fun link => spec_classify link = SplashLink) all_links /\
    NoDup pdf_links /\ NoDup xml_links /\ NoDup splash_links /\
    (forall link, link ∈ urls ->
       match spec_classify link with
       | PdfLink => (link ∈ pdf_links) ∧ (link ∉ xml_links) ∧ (link ∉ splash_links)
       | XmlLink => (link ∉ pdf_links) ∧ (link ∈ xml_links) ∧ (link ∉ splash_links)
       | SplashLink => (link ∉ pdf_links) ∧ (link ∉ xml_links) ∧ (link ∈ splash_links)
       | Discarded => (link ∉ pdf_links) ∧ (link ∉ xml_links) ∧ (link ∉ splash_links)
       end).
Proof.
  intros urls. unfold get_urls_in_record. fold urls.
  rewrite differentiate_urls_filter.
  eexists (list_of_set urls), _, _, _.
  split; [reflexivity|].
  split; [apply list_of_set_NoDup|].
  split; [apply list_of_set_elem|].
  do 3 (split; [reflexivity|]).
  do 3 (split; [apply NoDup_filter, list_of_set_NoDup|]).
  intros link Hin. apply list_of_set_elem in Hin.
  destruct (spec_classify link) eqn:Hc; repeat split;
    try (apply list_elem_of_filter; by split);
    intros [Hbad _]%list_elem_of_filter; congruence.
Qed.

(** The example of the specification, and the match ignoring case. *)
Example differentiate_urls_example :
  differentiate_urls
    ["http://x/a.pdf"; "http://x/b.xml"; "http://dx.doi.org/10.1/y"; "http://x/c.txt"]
  = (["http://x/a.pdf"], ["http://x/b.xml"], ["http://dx.doi.org/10.1/y"]).
Proof. reflexivity. Qed.

Example differentiate_urls_case :
  differentiate_urls ["HTTP://X/A.PDF"; "http://x/pdfs/b.xml"; "http://DX.DOI.ORG/1"]
  = (["HTTP://X/A.PDF"; "http://x/pdfs/b.xml"], [], ["http://DX.DOI.ORG/1"]).
Proof. reflexivity. Qed.

(** *** Copyright *)

Lemma join_singletons (cs : list ascii) :
  PyStr.join_empty (map (fun i => String i EmptyString) cs) = string_of_list_ascii cs.
Proof. induction cs as [|c cs IH]; simpl; [done|]. by rewrite IH. Qed.

Lemma filter_bool (f : ascii -> bool) (cs : list ascii) :
  filter (fun i => f i = true) cs = List.filter f cs.
Proof.
  induction cs as [|c cs IH]; [done|].
  rewrite filter_cons. simpl. rewrite IH.
  destruct (f c); by case_decide.
Qed.

(** C8. A copyright statement gives, as the year, its digit characters in
    order and nothing else. *)
Theorem copyright_year_is_digit_filter (node : record_node) (statement : string) :
  extract_first (xpath_texts "542" "f" node) = Some statement ->
  get_copyright node = Ok (Some statement, spec_digits statement) /\
  list_ascii_of_string (spec_digits statement)
  = List.filter PyStr.isdigit (list_ascii_of_string statement).
Proof.
  intros Hraw. unfold get_copyright. rewrite Hraw. split.
  - by rewrite join_singletons, filter_bool.
  - unfold spec_digits. apply list_ascii_of_string_of_list_ascii.
Qed.

Lemma copyright_year_is_digit_filter_witness :
  get_copyright (copyright_node "Copyright 2016, Author")
  = Ok (Some "Copyright 2016, Author", "2016").
Proof.
  exact (proj1 (copyright_year_is_digit_filter
                  (copyright_node "Copyright 2016, Author")
                  "Copyright 2016, Author" eq_refl)).
Defined.

Example copyright_year_two_numbers :
  get_copyright (copyright_node "(c) 2015-2016") = Ok (Some "(c) 2015-2016", "20152016").
Proof. reflexivity. Qed.

(** *** The whole record *)

Section ParseNode.

Context (OA_LICENSES : list string).
Context (re_search : string -> string -> bool).
Context {order : SetOrder}.

Lemma get_copyright_absent (node : record_node) :
  xpath_texts "542" "f" node = [] ->
  get_copyright node = Raise (TypeError "'NoneType' object is not iterable").
Proof. intros H. unfold get_copyright. by rewrite H. Qed.

(** A record without a copyright statement is not normalised: the digits of
    the year are taken from a statement that is [None]. *)
Lemma parse_node_without_copyright (node : record_node) :
  xpath_texts "542" "f" node = [] ->
  parse_node OA_LICENSES re_search node
  = Raise (TypeError "'NoneType' object is not iterable").
Proof. intros H. unfold parse_node. by rewrite get_copyright_absent. Qed.

(** A record without a license label is not normalised either: the label
    [None] is looked for in the title of the first known license. *)
Lemma parse_node_without_license (node : record_node) (statement : string) :
  extract_first (xpath_texts "542" "f" node) = Some statement ->
  xpath_texts "540" "a" node = [] ->
  parse_node OA_LICENSES re_search node
  = Raise (TypeError "'in <string>' requires string as left operand, not NoneType").
Proof.
  intros Hc Hl. unfold parse_node, get_copyright, _get_license.
  rewrite Hc, Hl. reflexivity.
Qed.

(** C3, at the record with no subfield at all: no record is produced, the
    normaliser raises. *)
Theorem parse_node_empty_record_raises :
  parse_node OA_LICENSES re_search {| datafields := [] |}
  = Raise (TypeError "'NoneType' object is not iterable").
Proof. by apply parse_node_without_copyright. Qed.

Lemma add_value_lookup_ne (f g : string) (v : pyval) (r : gmap string (list pyval)) :
  f <> g -> add_value f v r !! g = r !! g.
Proof.
  intros Hne. unfold add_value.
  destruct (arg_to_iter v); [done|]. by rewrite lookup_insert_ne.
Qed.

Lemma add_xpath_lookup_ne (f g : string) (texts : list string)
    (r : gmap string (list pyval)) :
  f <> g -> add_xpath f texts r !! g = r !! g.
Proof. apply add_value_lookup_ne. Qed.

Lemma add_value_list_fresh (f : string) (vs : list pyval) (r : gmap string (list pyval)) :
  r !! f = None -> vs <> [] -> add_value f (PList vs) r !! f = Some vs.
Proof.
  intros Hfresh Hne. unfold add_value. simpl.
  destruct vs as [|v vs]; [done|].
  rewrite lookup_insert_eq, Hfresh. reflexivity.
Qed.

(** With a copyright statement and a license label the normaliser returns. *)
Lemma parse_node_returns (node : record_node) (statement label : string) :
  extract_first (xpath_texts "542" "f" node) = Some statement ->
  extract_first (xpath_texts "540" "a" node) = Some label ->
  exists item, parse_node OA_LICENSES re_search node = Ok item.
Proof.
  intros Hc Hl. unfold parse_node, get_copyright, _get_license.
  rewrite Hc, Hl. cbn [mbind result_bind].
  assert (Hm : exists l, match_license licenses (Some label) = Ok (Some l)).
  { generalize licenses. intros table.
    induction table as [|[lic [title u]] rest IH]; [by eauto|].
    cbn [match_license]. unfold py_in.
    destruct (PyStr.truthy_opt (Some label)); cbn [mbind result_bind].
    - destruct (PyStr.contains label lic); cbn [mbind result_bind]; [by eauto|].
      destruct (PyStr.contains label title); eauto.
    - destruct (PyStr.contains label title); eauto. }
  destruct Hm as [l ->]. cbn [mbind result_bind].
  assert (Ho : exists b, match_openaccess re_search OA_LICENSES (Some l) = Ok b).
  { induction OA_LICENSES as [|p ps IH]; simpl; [eauto|].
    destruct (re_search p l); eauto. }
  destruct Ho as [b ->]. cbn [mbind result_bind].
  destruct (get_urls_in_record node) as [[pdf xml] splash]. eauto.
Qed.

(** C10. A produced record has the field [additional_files] exactly when
    the classification gave at least one XML link; the field then holds one
    entry per XML link, in order, each with access INSPIRE-HIDDEN, the
    upper-cased spider name as description, the link as url and type
    Fulltext. *)
Theorem additional_files_iff_xml_links (node : record_node)
    (item : gmap string (list pyval)) :
  parse_node OA_LICENSES re_search node = Ok item ->
  let xml_links := snd (fst (get_urls_in_record node)) in
  (xml_links = [] -> item !! "additional_files" = None) /\
  (xml_links <> [] ->
   item !! "additional_files"
   = Some (map (fun xml => PDict [("access", PStr "INSPIRE-HIDDEN");
                                  ("description", PStr "HINDAWI");
                                  ("url", PStr xml);
                                  ("type", PStr "Fulltext")]) xml_links)) /\
  (is_Some (item !! "additional_files") <-> xml_links <> []).
Proof.
  unfold parse_node.
  destruct (get_copyright node) as [[cr_statement cr_year]|e]; [|discriminate].
  cbn [mbind result_bind].
  destruct (_get_license OA_LICENSES re_search node)
    as [[[pub_license pub_license_url] openaccess]|e]; [|discriminate].
  cbn [mbind result_bind].
  destruct (get_urls_in_record node) as [[pdf_links xml_links] splash_links].
  intros [= <-]. cbn [fst snd]. unfold load_item.
  rewrite add_xpath_lookup_ne, add_value_lookup_ne by done.
  set (before := add_value "file_urls" _ _).
  assert (Hbefore : before !! "additional_files" = None).
  { subst before. rewrite !add_value_lookup_ne by done.
    destruct (PyStr.truthy_opt pub_license); [destruct openaccess|];
      rewrite ?add_value_lookup_ne by done;
      unfold add_xpath; rewrite !add_value_lookup_ne by done;
      apply lookup_empty. }
  destruct xml_links as [|xml xml_links].
  - split; [done|]. split; [done|]. rewrite Hbefore. split; [by intros [? ?]|done].
  - split; [done|].
    assert (Hafter : add_value "additional_files"
                       (PList (map (fun xml0 => create_fft_file xml0 "INSPIRE-HIDDEN" "Fulltext")
                                   (xml :: xml_links))) before !! "additional_files"
                     = Some (map (fun xml0 => create_fft_file xml0 "INSPIRE-HIDDEN" "Fulltext")
                                 (xml :: xml_links))).
    { by apply add_value_list_fresh. }
    split.
    + intros _. exact Hafter.
    + rewrite Hafter. split; [done|eauto].
Qed.

End ParseNode.

(** The license example of the specification: the label CC-BY-3.0 stays and
    the license is open access; the title of the license is normalised to
    the label. *)
Example license_cc_by :
  _get_license OA_LICENSES_example re_search_anchored
    {| datafields :=
         [{| df_tag := "540";
             df_subfields := [{| sf_code := "a"; sf_text := ["CC-BY-3.0"] |}] |}] |}
  = Ok (Some "CC-BY-3.0", None, true) /\
  _get_license OA_LICENSES_example re_search_anchored example_node
  = Ok (Some "CC-BY-3.0", None, true).
Proof. split; reflexivity. Qed.

Lemma additional_files_iff_xml_links_witness :
  parse_node (order := gset_order) OA_LICENSES_example re_search_anchored example_node
  = Ok example_item /\
  example_item !! "additional_files"
  = Some [PDict [("access", PStr "INSPIRE-HIDDEN"); ("description", PStr "HINDAWI");
                 ("url", PStr "http://x/b.xml"); ("type", PStr "Fulltext")]].
Proof.
  assert (H : parse_node (order := gset_order) OA_LICENSES_example re_search_anchored
                example_node = Ok example_item) by (vm_compute; reflexivity).
  split; [exact H|].
  pose proof (additional_files_iff_xml_links (order := gset_order)
                OA_LICENSES_example re_search_anchored example_node example_item H)
    as (_ & Hsome & _).
  apply Hsome. vm_compute. discriminate.
Defined.

End HindawiFacts.

(** ** The harvest bookkeeping *)

Module OAIPMHFacts.

Import OAIPMH.

(** Unfolds one layer of the plumbing of [io]. *)
Ltac io_simpl :=
  unfold try_except, lift, raise, mbind, mret, io_bind, io_ret;
  cbv beta; cbn [fst snd].

(** *** Loading the last run *)

Lemma open_read_cases (p : string) (w : world) :
  (exists c, open_read p w = (Ok c, w)) \/
  (exists errno, open_read p w = (Raise (IOError errno), w)).
Proof.
  unfold open_read.
  destruct (io_fault w (OpenRead p)); [by eauto|].
  destruct (files w !! p); [by eauto|].
  case_bool_decide; eauto.
Qed.

Lemma load_last_run_found (self : spider) (w : world) (c : file_content) :
  open_read (_last_run_file_path self) w = (Ok c, w) ->
  _load_last_run self w = (json_load c, w).
Proof.
  intros H. unfold _load_last_run. io_simpl. rewrite H.
  destruct c; reflexivity.
Qed.

Lemma load_last_run_error (self : spider) (w : world) (errno : Z) :
  open_read (_last_run_file_path self) w = (Raise (IOError errno), w) ->
  _load_last_run self w
  = (if errno =? NO_SUCH_FILE_OR_DIR
     then Raise (NoLastRunToLoad (_last_run_file_path self))
     else Raise (IOError errno), w).
Proof.
  intros H. unfold _load_last_run. io_simpl. rewrite H.
  by destruct (errno =? NO_SUCH_FILE_OR_DIR).
Qed.

Lemma load_last_run_world (self : spider) (w : world) :
  snd (_load_last_run self w) = w.
Proof.
  destruct (open_read_cases (_last_run_file_path self) w) as [[c H]|[errno H]].
  - by rewrite (load_last_run_found _ _ _ H).
  - by rewrite (load_last_run_error _ _ _ H).
Qed.


Example load_without_file :
  fst (_load_last_run example_spider (example_world (LRRaise NoRecordsMatch)))
  = Raise (NoLastRunToLoad
             "/var/lib/last_runs/OAI-PMH/fc4a388d0a3b323d3441052b44f25cf07502338d.json").
Proof. vm_compute. reflexivity. Qed.

Example load_permission_denied :
  fst (_load_last_run example_spider locked_world) = Raise (IOError EACCES).
Proof. vm_compute. reflexivity. Qed.

Example save_permission_denied :
  fst (_save_run example_spider (example_clock 0) locked_world)
  = Raise (OSError EACCES) /\
  files (snd (_save_run example_spider (example_clock 0) locked_world)) = ∅.
Proof. split; vm_compute; reflexivity. Qed.

(** Saving a second run finds the directory there and overwrites the file. *)
Example save_again :
  fst (makedirs (dirname (_last_run_file_path example_spider)) world_after_first_run)
  = Raise (OSError FILE_EXISTS) /\
  fst (_save_run example_spider (example_clock 5) world_after_first_run) = Ok tt.
Proof. split; vm_compute; reflexivity. Qed.

(** *** Dates *)

Lemma digit_char_isdigit (n : Z) : PyStr.isdigit (digit_char n) = true.
Proof.
  unfold digit_char.
  assert (H : (Z.to_nat (n mod 10) < 10)%nat).
  { pose proof (Z.mod_pos_bound n 10). lia. }
  destruct (Z.to_nat (n mod 10)) as [|[|[|[|[|[|[|[|[|[|k]]]]]]]]]];
    (reflexivity || lia).
Qed.

Lemma date_part_is_Ymd (t : datetime) : is_Ymd (date_part t) = true.
Proof.
  cbv [is_Ymd date_part zfill String.append list_ascii_of_string forallb].
  rewrite !digit_char_isdigit. reflexivity.
Qed.

Lemma prefix_append (a b : string) : String.prefix a (a +:+ b) = true.
Proof.
  induction a as [|c a IH]; [by destruct b|].
  change (String c a +:+ b) with (String c (a +:+ b)). cbn [String.prefix].
  destruct (ascii_dec c c); [exact IH|done].
Qed.

(** The date of a timestamp is where its [isoformat] starts. *)
Lemma isoformat_starts_with_date (t : datetime) :
  String.prefix (date_part t) (isoformat t) = true.
Proof. unfold isoformat. apply prefix_append. Qed.

(** *** The start date *)

Section Resolve.

Context (dateparser_parse : string -> result datetime).

Lemma resume_from_loaded (self : spider) (w : world)
    (last_run : gmap string jval) (until resume_at : jval) (t : datetime) :
  _load_last_run self w = (Ok last_run, w) ->
  last_run !! "until_date" = Some until ->
  (if jtruthy until then Some until else last_run !! "last_run_finished_at")
  = Some resume_at ->
  dateparser_parse_value dateparser_parse resume_at = Ok t ->
  1900 <= year t ->
  _resume_from dateparser_parse self w = (Ok (Some (date_part t)), w).
Proof.
  intros Hload Huntil Hresume Hparse Hyear.
  unfold _resume_from. io_simpl. rewrite Hload. unfold getitem. rewrite Huntil.
  assert (Hf : strftime_Ymd t = Ok (date_part t)).
  { unfold strftime_Ymd. destruct (year t <? 1900) eqn:E; [|done].
    apply Z.ltb_lt in E. lia. }
  destruct (jtruthy until).
  - injection Hresume as ->. by rewrite Hparse, Hf.
  - rewrite Hresume, Hparse, Hf. reflexivity.
Qed.

Lemma resume_from_no_file (self : spider) (w : world) :
  fst (open_read (_last_run_file_path self) w) = Raise (IOError NO_SUCH_FILE_OR_DIR) ->
  _resume_from dateparser_parse self w = (Ok None, w).
Proof.
  intros Hopen.
  destruct (open_read_cases (_last_run_file_path self) w) as [[c H]|[errno H]];
    rewrite H in Hopen; simpl in Hopen; [discriminate|].
  injection Hopen as ->.
  unfold _resume_from. io_simpl.
  by rewrite (load_last_run_error _ _ _ H).
Qed.

(** C1. With a from_date given, the start date is that value, whatever is
    on disk. Without one: when a last run is loaded, the start date is the
    date of its until_date if it has one, else the date of the time it
    finished, written YYYY-MM-DD and cut to the day; when there is no file
    of a last run, there is no start date. Resolving reads and does not
    write. *)
Theorem resolve_start_date_cases (self : spider) (w : world) :
  (forall d,
      from_date self = Some d -> d <> "" ->
      resolve_start_date dateparser_parse self w = (Ok (Some d), w)) /\
  (PyStr.truthy_opt (from_date self) = false ->
   (forall last_run until t,
       _load_last_run self w = (Ok last_run, w) ->
       last_run !! "until_date" = Some (JStr until) -> until <> "" ->
       dateparser_parse until = Ok t -> 1900 <= year t ->
       resolve_start_date dateparser_parse self w = (Ok (Some (date_part t)), w)) /\
   (forall last_run until finished_at t,
       _load_last_run self w = (Ok last_run, w) ->
       last_run !! "until_date" = Some until -> jtruthy until = false ->
       last_run !! "last_run_finished_at" = Some (JStr finished_at) ->
       dateparser_parse finished_at = Ok t -> 1900 <= year t ->
       resolve_start_date dateparser_parse self w = (Ok (Some (date_part t)), w)) /\
   (fst (open_read (_last_run_file_path self) w) = Raise (IOError NO_SUCH_FILE_OR_DIR) ->
    resolve_start_date dateparser_parse self w = (Ok None, w))) /\
  (forall t, is_Ymd (date_part t) = true /\
             String.prefix (date_part t) (isoformat t) = true).
Proof.
  split; [|split].
  - intros d Hd Hne. unfold resolve_start_date. rewrite Hd.
    destruct d; [done|reflexivity].
  - intros Hnone. unfold resolve_start_date. rewrite Hnone.
    split; [|split].
    + intros last_run until t Hload Huntil Hne Hparse Hyear.
      apply (resume_from_loaded self w last_run (JStr until) (JStr until) t);
        try done.
      simpl. by destruct until.
    + intros last_run until finished_at t Hload Huntil Hfalse Hfin Hparse Hyear.
      apply (resume_from_loaded self w last_run until (JStr finished_at) t);
        try done.
      by rewrite Hfalse.
    + apply resume_from_no_file.
  - intros t. split; [apply date_part_is_Ymd|apply isoformat_starts_with_date].
Qed.

(** Resolving the start date leaves the world as it is. *)
Lemma resolve_start_date_world (self : spider) (w : world) :
  snd (resolve_start_date dateparser_parse self w) = w.
Proof.
  unfold resolve_start_date.
  destruct (PyStr.truthy_opt (from_date self)); [done|].
  unfold _resume_from. io_simpl.
  pose proof (load_last_run_world self w) as Hw.
  destruct (_load_last_run self w) as [[last_run|e] w']; simpl in Hw; subst w'.
  - repeat (case_match; simplify_eq/=); reflexivity.
  - by destruct e.
Qed.

End Resolve.

Lemma resolve_start_date_cases_witness :
  resolve_start_date iso_parse example_spider world_after_first_run
  = (Ok (Some "2017-03-09"), world_after_first_run).
Proof.
  pose proof (resolve_start_date_cases iso_parse example_spider
                world_after_first_run) as [_ [H _]].
  destruct (H eq_refl) as (_ & Hfinished & _).
  apply (Hfinished
           (last_run_info example_spider (example_clock 0) (example_clock 2))
           JNull "2017-03-09T01:02:02" (example_clock 2));
    vm_compute; (reflexivity || discriminate).
Defined.

(** *** Saving a run *)

Lemma makedirs_cases (d : string) (w : world) :
  (exists errno, makedirs d w = (Raise (OSError errno), w)) \/
  (makedirs d w = (Ok tt, with_dirs w ({[ d ]} ∪ dirs w))).
Proof.
  unfold makedirs. repeat case_match; eauto.
Qed.

(** A run that is saved is in the file of its alias; nothing else of the
    files changes. *)
Lemma save_run_ok (self : spider) (started_at : datetime) (w w' : world) :
  _save_run self started_at w = (Ok tt, w') ->
  files w' = <[_last_run_file_path self :=
                 JsonDoc (last_run_info self started_at (clock w (ticks w)))]> (files w) /\
  io_fault w' = io_fault w /\ clock w' = clock w /\ ticks w' = S (ticks w) /\
  remote w' = remote w.
Proof.
  unfold _save_run, utcnow. io_simpl.
  destruct (makedirs_cases (dirname (_last_run_file_path self)) (tick w))
    as [[errno ->] | ->].
  - destruct (errno =? FILE_EXISTS); simpl; [|discriminate].
    unfold open_write. repeat case_match; intros [= <-]; done.
  - unfold open_write. repeat case_match; intros [= <-]; done.
Qed.



Lemma open_write_ok (p : string) (c : file_content) (w : world) :
  io_fault w (OpenWrite p) = None -> p ∉ dirs w -> dirname p ∈ dirs w ->
  open_write p c w = (Ok tt, with_files w (<[p := c]> (files w))).
Proof.
  intros Hfault Hp Hd. unfold open_write. rewrite Hfault.
  rewrite bool_decide_false by done. by rewrite bool_decide_true.
Qed.


Lemma load_after_save (self : spider) (w : world) (doc : gmap string jval) :
  files w !! _last_run_file_path self = Some (JsonDoc doc) ->
  io_fault w (OpenRead (_last_run_file_path self)) = None ->
  _load_last_run self w = (Ok doc, w).
Proof.
  intros Hfile Hfault. apply (load_last_run_found self w (JsonDoc doc)).
  unfold open_read. by rewrite Hfault, Hfile.
Qed.

(** *** One harvest *)

Section Flow.

Context (dateparser_parse : string -> result datetime).
Context {Item : Type} {parser : RecordParser Item}.

(** What [start_requests] has done when it yields its request. *)
Lemma start_requests_begin_ok (self0 self : spider) (w0 w1 : world)
    (started_at : datetime) (request : string) :
  start_requests_begin dateparser_parse self0 w0 = (Ok (self, started_at, request), w1) ->
  exists from,
    resolve_start_date dateparser_parse self0 w0 = (Ok from, w0) /\
    self = with_from_date self0 from /\
    started_at = clock w0 (ticks w0) /\ w1 = tick w0.
Proof.
  unfold start_requests_begin, utcnow. io_simpl.
  pose proof (resolve_start_date_world dateparser_parse self0 w0) as Hw.
  destruct (resolve_start_date dateparser_parse self0 w0) as [[from|e] w'];
    simpl in Hw; subst w'; [|discriminate].
  intros [= <- <- <- <-]. eauto.
Qed.

Lemma start_requests_begin_raises (self0 : spider) (w0 w1 : world) (e : exn) :
  start_requests_begin dateparser_parse self0 w0 = (Raise e, w1) -> w1 = w0.
Proof.
  unfold start_requests_begin, utcnow. io_simpl.
  pose proof (resolve_start_date_world dateparser_parse self0 w0) as Hw.
  destruct (resolve_start_date dateparser_parse self0 w0) as [[from|e'] w'];
    simpl in Hw; subst w'; [discriminate|].
  by intros [= _ <-].
Qed.


(** A harvest whose start date cannot be resolved ends there: nothing is
    fetched, nothing is written. *)
Lemma harvest_begin_failure (self0 : spider) (w0 w1 : world) (e : exn) :
  start_requests_begin dateparser_parse self0 w0 = (Raise e, w1) ->
  harvest dateparser_parse self0 w0
  = {| items := []; failure := Some e; final := w0 |}.
Proof.
  intros H. pose proof (start_requests_begin_raises _ _ _ _ H) as ->.
  unfold harvest. by rewrite H.
Qed.





End Flow.




(** A listing that breaks after its first record: the record is given, the
    harvest fails, no run is saved. *)
Example harvest_listing_breaks :
  let result := harvest iso_parse (parser := raw_parser) example_spider
                  (example_world (LRIter ["<record/>"] (Some (RemoteError "timeout")))) in
  items result = ["<record/>"] /\
  failure result = Some (RemoteError "timeout") /\
  files (final result) = ∅.
Proof. repeat split; vm_compute; reflexivity. Qed.

(** *** Aliases and paths *)

Lemma append_cons (c : ascii) (a b : string) :
  String c a +:+ b = String c (a +:+ b).
Proof. reflexivity. Qed.

Lemma append_assoc (a b c : string) : (a +:+ b) +:+ c = a +:+ (b +:+ c).
Proof.
  induction a as [|x a IH]; [reflexivity|].
  by rewrite !append_cons, IH.
Qed.

Lemma length_append (a b : string) :
  String.length (a +:+ b) = (String.length a + String.length b)%nat.
Proof.
  induction a as [|x a IH]; [reflexivity|].
  rewrite append_cons. simpl. by rewrite IH.
Qed.

Lemma append_inj_r (a b c : string) : a +:+ c = b +:+ c -> a = b.
Proof.
  revert b. induction a as [|x a IH]; intros [|y b] H.
  - reflexivity.
  - apply (f_equal String.length) in H.
    rewrite !length_append in H. simpl in H. lia.
  - apply (f_equal String.length) in H.
    rewrite !length_append in H. simpl in H. lia.
  - rewrite !append_cons in H. injection H as -> H. f_equal. by apply IH.
Qed.

(** Two strings without [&], each followed by [&] and a rest, are found
    again from the whole. *)
Lemma split_at_amp (p1 p2 r1 r2 : string) :
  PyStr.has_char "&" p1 = false -> PyStr.has_char "&" p2 = false ->
  p1 +:+ String "&" r1 = p2 +:+ String "&" r2 ->
  p1 = p2 /\ r1 = r2.
Proof.
  revert p2. induction p1 as [|c1 p1 IH]; intros [|c2 p2] H1 H2 H.
  - by injection H.
  - rewrite append_cons in H. injection H as <- _. simpl in H2. discriminate.
  - rewrite append_cons in H. injection H as -> _. simpl in H1. discriminate.
  - rewrite !append_cons in H. injection H as -> H.
    simpl in H1, H2. apply orb_false_elim in H1 as [_ H1].
    apply orb_false_elim in H2 as [_ H2].
    destruct (IH p2 H1 H2 H) as [-> ->]. done.
Qed.

Lemma hex_digit_not_slash (n : Z) : SHA1.hex_digit n <> "/"%char.
Proof. unfold SHA1.hex_digit. repeat case_match; discriminate. Qed.

Lemma file_name_no_leading_slash (s : string) :
  PyStr.startswith "/" (SHA1.hexdigest s +:+ ".json") = false.
Proof.
  unfold SHA1.hexdigest. destruct (SHA1.digest s) as [[[[h0 h1] h2] h3] h4].
  cbn [SHA1.hex]. rewrite !append_cons.
  unfold PyStr.startswith. cbn [String.prefix].
  destruct (ascii_dec _ _) as [E|]; [|done].
  symmetry in E. by apply hex_digit_not_slash in E.
Qed.

Lemma join2_relative (path b : string) :
  PyStr.startswith "/" b = false -> join2 path b = join_base path +:+ b.
Proof.
  intros Hb. unfold join2, join_base. rewrite Hb.
  destruct (negb (PyStr.truthy path) || PyStr.ends_with_slash path); [done|].
  by rewrite append_assoc.
Qed.

Lemma alias_injective (a b : spider) :
  unambiguous a -> unambiguous b ->
  _make_alias a = _make_alias b ->
  metadata_prefix a = metadata_prefix b /\ oai_set a = oai_set b.
Proof.
  intros [Ha1 Ha2] [Hb1 Hb2]. unfold _make_alias. intros H.
  apply (inj (String.app "metadataPrefix=")) in H.
  change ("&set=" +:+ ?f) with (String "&" ("set=" +:+ f)) in H.
  apply split_at_amp in H as [Hp Hs]; [|done..].
  split; [done|].
  apply (inj (String.app "set=")) in Hs.
  destruct (oai_set a) as [sa|], (oai_set b) as [sb|]; simpl in Hs; congruence.
Qed.

(** C7, as the code has it. For two spiders whose metadata prefix has no
    [&] and whose set is not one named [None]: equal aliases come only from
    equal pairs of prefix and set; and under one root and one spider name
    the paths are equal exactly when the SHA-1 digests of the aliases are. *)
Theorem alias_and_path_injective (a b : spider) :
  unambiguous a -> unambiguous b ->
  (_make_alias a = _make_alias b ->
   metadata_prefix a = metadata_prefix b /\ oai_set a = oai_set b) /\
  (LAST_RUNS_PATH a = LAST_RUNS_PATH b -> name a = name b ->
   (_last_run_file_path a = _last_run_file_path b
    <-> SHA1.hexdigest (_make_alias a) = SHA1.hexdigest (_make_alias b))).
Proof.
  intros Ha Hb. split; [by apply alias_injective|].
  intros Hroot Hname. unfold _last_run_file_path, path_join.
  rewrite Hroot, Hname.
  rewrite (join2_relative _ (SHA1.hexdigest (_make_alias a) +:+ ".json"))
    by apply file_name_no_leading_slash.
  rewrite (join2_relative _ (SHA1.hexdigest (_make_alias b) +:+ ".json"))
    by apply file_name_no_leading_slash.
  split.
  - intros H. apply (inj (String.app _)) in H. by apply append_inj_r in H.
  - by intros ->.
Qed.

(** C7, as it is stated, fails: no set and the set named [None] are two
    pairs with one alias and one path; so are a prefix that holds [&set=]
    and the prefix cut there. *)
Lemma alias_collision :
  (metadata_prefix spider_without_set, oai_set spider_without_set)
  <> (metadata_prefix spider_with_set_named_None, oai_set spider_with_set_named_None) /\
  _last_run_file_path spider_without_set
  = _last_run_file_path spider_with_set_named_None /\
  (metadata_prefix (spider_with_set "a&set=b" "c"), oai_set (spider_with_set "a&set=b" "c"))
  <> (metadata_prefix (spider_with_set "a" "b&set=c"), oai_set (spider_with_set "a" "b&set=c")) /\
  _last_run_file_path (spider_with_set "a&set=b" "c")
  = _last_run_file_path (spider_with_set "a" "b&set=c").
Proof. repeat split; (discriminate || (vm_compute; reflexivity)). Qed.

Lemma alias_and_path_injective_witness :
  _last_run_file_path (spider_with_set "oai_dc" "physics")
  <> _last_run_file_path (spider_with_set "marc21" "physics").
Proof.
  destruct (alias_and_path_injective (spider_with_set "oai_dc" "physics")
              (spider_with_set "marc21" "physics")) as [_ Hpath].
  - split; [reflexivity|discriminate].
  - split; [reflexivity|discriminate].
  - intros Heq. apply (Hpath eq_refl eq_refl) in Heq.
    vm_compute in Heq. discriminate.
Defined.

End OAIPMHFacts.

(** ** More on the record normaliser *)

Module HindawiMore.

Import Hindawi HindawiFacts.

(** *** License resolution *)

Lemma contains_empty (s : string) : PyStr.contains "" s = true.
Proof. by destruct s. Qed.

(** The label that the first loop of [_get_license] leaves. *)
Lemma match_license_label (label : string) :
  match_license licenses (Some label)
  = Ok (Some (if PyStr.contains label "CC-BY-3.0"
                 || PyStr.contains label "Creative Commons Attribution 3.0"
              then "CC-BY-3.0" else label)).
Proof.
  unfold licenses. cbn [match_license]. unfold py_in.
  destruct label as [|c label].
  - rewrite !contains_empty. reflexivity.
  - cbn [PyStr.truthy_opt PyStr.truthy].
    destruct (PyStr.contains (String c label) "CC-BY-3.0"); cbn [mbind result_bind orb];
      [reflexivity|].
    destruct (PyStr.contains (String c label) "Creative Commons Attribution 3.0");
      reflexivity.
Qed.

Lemma match_openaccess_exists (re_search : string -> string -> bool)
    (patterns : list string) (label : string) :
  match_openaccess re_search patterns (Some label)
  = Ok (existsb (fun pattern => re_search pattern label) patterns).
Proof.
  induction patterns as [|p ps IH]; [reflexivity|].
  cbn [match_openaccess existsb]. destruct (re_search p label); [reflexivity|exact IH].
Qed.

Lemma normalised_label_truthy (label : string) :
  PyStr.truthy (normalised_label label) = true.
Proof.
  unfold normalised_label. destruct label as [|c label].
  - by rewrite !contains_empty.
  - by destruct (_ || _).
Qed.

Section License.

Context (OA_LICENSES : list string).
Context (re_search : string -> string -> bool).

Lemma get_license_closed (node : record_node) (label : string) :
  extract_first (xpath_texts "540" "a" node) = Some label ->
  _get_license OA_LICENSES re_search node
  = Ok (Some (normalised_label label),
        extract_first (xpath_texts "540" "u" node),
        existsb (fun pattern => re_search pattern (normalised_label label)) OA_LICENSES).
Proof.
  intros Hl. unfold _get_license. rewrite Hl, match_license_label.
  cbn [mbind result_bind]. fold (normalised_label label).
  rewrite match_openaccess_exists. reflexivity.
Qed.

(** X1. A license label that is there is replaced by CC-BY-3.0 exactly
    when it occurs inside the identifier CC-BY-3.0 or inside the title of
    that license (the label inside the name, not the name inside the
    label), and is kept otherwise; the url is the first text of 540$u; the
    license is open access when a pattern of OA_LICENSES matches the
    resulting label, which is never empty. *)
Theorem license_normalisation (node : record_node) (label : string) :
  extract_first (xpath_texts "540" "a" node) = Some label ->
  exists label',
    _get_license OA_LICENSES re_search node
    = Ok (Some label', extract_first (xpath_texts "540" "u" node),
          existsb (fun pattern => re_search pattern label') OA_LICENSES) /\
    label' <> "" /\
    (PyStr.contains label "CC-BY-3.0" = true \/
     PyStr.contains label "Creative Commons Attribution 3.0" = true ->
     label' = "CC-BY-3.0") /\
    (PyStr.contains label "CC-BY-3.0" = false ->
     PyStr.contains label "Creative Commons Attribution 3.0" = false ->
     label' = label).
Proof.
  intros Hl. exists (normalised_label label).
  split; [by apply get_license_closed|].
  split.
  { pose proof (normalised_label_truthy label) as H.
    by destruct (normalised_label label). }
  unfold normalised_label. split.
  - intros [-> | ->]; [done|]. by rewrite orb_true_r.
  - by intros -> ->.
Qed.

End License.

Lemma license_normalisation_witness :
  exists label',
    _get_license OA_LICENSES_example re_search_anchored example_node
    = Ok (Some label', None, true) /\ label' = "CC-BY-3.0".
Proof.
  destruct (license_normalisation OA_LICENSES_example re_search_anchored
              example_node "Creative Commons Attribution 3.0" eq_refl)
    as (label' & Hget & _ & Hnorm & _).
  exists label'.
  assert (Hl : label' = "CC-BY-3.0") by (apply Hnorm; right; reflexivity).
  split; [|exact Hl]. rewrite Hget. subst label'. reflexivity.
Defined.

(** A label that merely starts with the identifier is not normalised; a
    fragment of the identifier is. *)
Example license_label_direction :
  normalised_label "CC-BY-3.0 Unported" = "CC-BY-3.0 Unported" /\
  normalised_label "BY" = "CC-BY-3.0".
Proof. split; reflexivity. Qed.

(** *** The fields of a produced record *)

Lemma add_value_fresh (f : string) (v : pyval) (r : gmap string (list pyval)) :
  r !! f = None -> add_value f v r !! f = loaded v.
Proof.
  intros Hfresh. unfold add_value, loaded.
  destruct (arg_to_iter v) as [|x vs]; [done|].
  by rewrite lookup_insert_eq, Hfresh.
Qed.

Lemma add_xpath_fresh (f : string) (texts : list string)
    (r : gmap string (list pyval)) :
  r !! f = None -> add_xpath f texts r !! f = loaded_texts texts.
Proof. apply add_value_fresh. Qed.

Ltac skip_fields :=
  repeat first [ rewrite add_xpath_lookup_ne by done
               | rewrite add_value_lookup_ne by done ].

(** Looks a field up in the chain of loader calls of [parse_node]. *)
Ltac lookup_field :=
  skip_fields;
  first [ apply lookup_empty
        | rewrite add_xpath_fresh; [reflexivity|skip_fields; apply lookup_empty]
        | rewrite add_value_fresh; [reflexivity|skip_fields; apply lookup_empty] ].

Section Fields.

Context (OA_LICENSES : list string).
Context (re_search : string -> string -> bool).
Context {order : SetOrder}.

Lemma parse_node_ok_inv (node : record_node) (item : gmap string (list pyval)) :
  parse_node OA_LICENSES re_search node = Ok item ->
  exists statement label,
    extract_first (xpath_texts "542" "f" node) = Some statement /\
    extract_first (xpath_texts "540" "a" node) = Some label.
Proof.
  intros Hparse.
  destruct (xpath_texts "542" "f" node) as [|statement ?] eqn:Hc.
  { by rewrite (parse_node_without_copyright _ _ node Hc) in Hparse. }
  destruct (xpath_texts "540" "a" node) as [|label ?] eqn:Hl.
  { rewrite (parse_node_without_license _ _ node statement) in Hparse;
      [done|by rewrite Hc|done]. }
  eauto.
Qed.

(** X2. The normaliser gives a record exactly when the node has a
    copyright statement (542$f) and a license label (540$a); without one of
    them it raises a TypeError. *)
Theorem parse_node_returns_iff (node : record_node) :
  ((exists item, parse_node OA_LICENSES re_search node = Ok item)
   <-> xpath_texts "542" "f" node <> [] /\ xpath_texts "540" "a" node <> []) /\
  (forall e, parse_node OA_LICENSES re_search node = Raise e ->
             exists what, e = TypeError what).
Proof.
  split; [split|].
  - intros [item Hparse].
    destruct (parse_node_ok_inv node item Hparse) as (stm & lab & Hs & Hl).
    split; intros Hnil; [rewrite Hnil in Hs|rewrite Hnil in Hl]; discriminate.
  - intros [Hs Hl].
    destruct (xpath_texts "542" "f" node) as [|stm ?] eqn:Es; [done|].
    destruct (xpath_texts "540" "a" node) as [|lab ?] eqn:El; [done|].
    apply (parse_node_returns _ _ node stm lab); unfold extract_first;
      [by rewrite Es|by rewrite El].
  - intros e Hraise.
    destruct (xpath_texts "542" "f" node) as [|stm ?] eqn:Es.
    { rewrite (parse_node_without_copyright _ _ node Es) in Hraise.
      injection Hraise as <-. eauto. }
    destruct (xpath_texts "540" "a" node) as [|lab ?] eqn:El.
    { rewrite (parse_node_without_license _ _ node stm) in Hraise;
        [|by rewrite Es|done].
      injection Hraise as <-. eauto. }
    destruct (parse_node_returns OA_LICENSES re_search node stm lab) as [item Hok];
      unfold extract_first; [by rewrite Es|by rewrite El|].
    rewrite Hok in Hraise. discriminate.
Qed.

(** Opens [parse_node] on a node that it normalises. *)
Ltac open_parse_node Hparse node statement label Hc Hl pdf xml splash :=
  destruct (parse_node_ok_inv node _ Hparse) as (statement & label & Hc & Hl);
  unfold parse_node, get_copyright in Hparse; rewrite Hc in Hparse;
  rewrite (get_license_closed _ _ node label Hl) in Hparse;
  cbn [mbind result_bind PyStr.truthy_opt] in Hparse;
  rewrite normalised_label_truthy in Hparse;
  destruct (get_urls_in_record node) as [[pdf xml] splash];
  injection Hparse as <-; unfold load_item.

(** X3. Every produced record carries the collections HEP, Citeable and
    Published, its copyright statement, and as copyright year the digits of
    the statement, also when there are none (the year is then the empty
    string, still stored). *)
Theorem collections_and_copyright (node : record_node)
    (item : gmap string (list pyval)) :
  parse_node OA_LICENSES re_search node = Ok item ->
  item !! "collections" = Some [PStr "HEP"; PStr "Citeable"; PStr "Published"] /\
  exists statement,
    extract_first (xpath_texts "542" "f" node) = Some statement /\
    item !! "copyright_statement" = Some [PStr statement] /\
    item !! "copyright_year" = Some [PStr (spec_digits statement)].
Proof.
  intros Hparse.
  open_parse_node Hparse node statement label Hc Hl pdf xml splash.
  rewrite join_singletons, filter_bool. fold (spec_digits statement).
  split; [|exists statement; split; [done|split]];
    destruct xml;
    destruct (existsb (fun pattern => re_search pattern (normalised_label label))
                      OA_LICENSES);
    lookup_field.
Qed.

(** X4. Every produced record has a license: the resolved label, never
    empty; the license url is there exactly when 540$u has a text; the
    license type is open-access exactly when a pattern of OA_LICENSES
    matches the resolved label, and absent otherwise. *)
Theorem license_fields (node : record_node) (item : gmap string (list pyval)) :
  parse_node OA_LICENSES re_search node = Ok item ->
  exists label',
    item !! "license" = Some [PStr label'] /\ label' <> "" /\
    item !! "license_url"
    = match extract_first (xpath_texts "540" "u" node) with
      | Some license_url => Some [PStr license_url]
      | None => None
      end /\
    item !! "license_type"
    = if existsb (fun pattern => re_search pattern label') OA_LICENSES
      then Some [PStr "open-access"] else None.
Proof.
  intros Hparse.
  open_parse_node Hparse node statement label Hc Hl pdf xml splash.
  exists (normalised_label label).
  split; [|split; [|split]].
  - destruct xml;
      destruct (existsb (fun pattern => re_search pattern (normalised_label label))
                        OA_LICENSES);
      lookup_field.
  - pose proof (normalised_label_truthy label) as H.
    by destruct (normalised_label label).
  - destruct xml;
      destruct (existsb (fun pattern => re_search pattern (normalised_label label))
                        OA_LICENSES);
      destruct (extract_first (xpath_texts "540" "u" node));
      lookup_field.
  - destruct xml;
      destruct (existsb (fun pattern => re_search pattern (normalised_label label))
                        OA_LICENSES);
      lookup_field.
Qed.

(** X5. In a produced record the field urls holds the splash links and
    file_urls the PDF links, in the order of the classification; each of
    the two is absent when there is no such link. *)
Theorem link_fields (node : record_node) (item : gmap string (list pyval)) :
  parse_node OA_LICENSES re_search node = Ok item ->
  let '(pdf_links, _, splash_links) := get_urls_in_record node in
  item !! "urls" = loaded_texts splash_links /\
  item !! "file_urls" = loaded_texts pdf_links /\
  (splash_links = [] -> item !! "urls" = None) /\
  (pdf_links = [] -> item !! "file_urls" = None).
Proof.
  intros Hparse.
  open_parse_node Hparse node statement label Hc Hl pdf xml splash.
  split; [|split; [|split]].
  - destruct xml;
      destruct (existsb (fun pattern => re_search pattern (normalised_label label))
                        OA_LICENSES);
      lookup_field.
  - destruct xml;
      destruct (existsb (fun pattern => re_search pattern (normalised_label label))
                        OA_LICENSES);
      lookup_field.
  - intros ->.
    destruct xml;
      destruct (existsb (fun pattern => re_search pattern (normalised_label label))
                        OA_LICENSES);
      lookup_field.
  - intros ->.
    destruct xml;
      destruct (existsb (fun pattern => re_search pattern (normalised_label label))
                        OA_LICENSES);
      lookup_field.
Qed.


End Fields.

(** *** More on the classification of links *)

Lemma filter_none {A : Type} (P : A -> Prop) `{forall x, Decision (P x)} (l : list A) :
  (forall x, x ∈ l -> ~ P x) -> filter P l = [].
Proof.
  induction l as [|x l IH]; intros Hno; [done|].
  rewrite filter_cons_False by (apply Hno; left).
  apply IH. intros y Hy. apply Hno. by right.
Qed.

Lemma filter_all {A : Type} (P : A -> Prop) `{forall x, Decision (P x)} (l : list A) :
  (forall x, x ∈ l -> P x) -> filter P l = l.
Proof.
  induction l as [|x l IH]; intros Hall; [done|].
  rewrite filter_cons_True by (apply Hall; left).
  f_equal. apply IH. intros y Hy. apply Hall. by right.
Qed.

Lemma differentiate_urls_bucket (b : bucket) (urls : list string) :
  let bucket_links := filter (fun link => spec_classify link = b) urls in
  differentiate_urls bucket_links
  = (if decide (b = PdfLink) then bucket_links else [],
     if decide (b = XmlLink) then bucket_links else [],
     if decide (b = SplashLink) then bucket_links else []).
Proof.
  intros bucket_links.
  assert (Hin : forall x, x ∈ bucket_links -> spec_classify x = b).
  { intros x Hx. by apply list_elem_of_filter in Hx as [? _]. }
  clearbody bucket_links. rewrite differentiate_urls_filter.
  assert (Hfilter : forall c,
             filter (fun link => spec_classify link = c) bucket_links
             = if decide (b = c) then bucket_links else []).
  { intros c. case_decide as Hbc.
    - apply filter_all. intros x Hx. by rewrite (Hin x Hx).
    - apply filter_none. intros x Hx. by rewrite (Hin x Hx). }
  by rewrite !Hfilter.
Qed.

Lemma classified_length (urls : list string) :
  (length (filter (fun link => spec_classify link = PdfLink) urls)
   + length (filter (fun link => spec_classify link = XmlLink) urls)
   + length (filter (fun link => spec_classify link = SplashLink) urls)
   + length (filter (fun link => spec_classify link = Discarded) urls)
   = length urls)%nat.
Proof.
  induction urls as [|link urls IH]; [done|].
  rewrite !filter_cons.
  destruct (spec_classify link); repeat case_decide; try congruence;
    simpl; lia.
Qed.

(** X7. Classifying is stable and additive: the links of a bucket, classified
    again, all stay in that bucket; the buckets of a list followed by
    another are the buckets of the first followed by those of the second;
    and the three buckets together hold as many links as the input has,
    less the discarded ones. *)
Theorem classification_stable (urls : list string) :
  let '(pdf_links, xml_links, splash_links) := differentiate_urls urls in
  differentiate_urls pdf_links = (pdf_links, [], []) /\
  differentiate_urls xml_links = ([], xml_links, []) /\
  differentiate_urls splash_links = ([], [], splash_links) /\
  (length pdf_links + length xml_links + length splash_links
   + length (filter (fun link => spec_classify link = Discarded) urls)
   = length urls)%nat /\
  (forall more,
      differentiate_urls (urls ++ more)
      = let '(pdf_more, xml_more, splash_more) := differentiate_urls more in
        (pdf_links ++ pdf_more, xml_links ++ xml_more, splash_links ++ splash_more)).
Proof.
  rewrite differentiate_urls_filter.
  split; [apply (differentiate_urls_bucket PdfLink)|].
  split; [apply (differentiate_urls_bucket XmlLink)|].
  split; [apply (differentiate_urls_bucket SplashLink)|].
  split; [apply classified_length|].
  intros more. rewrite !differentiate_urls_filter. by rewrite !filter_app.
Qed.

(** X8. The buckets depend only on which links the node has, not on their
    order, their number of occurrences or the tag family they come from:
    two nodes with the same links get the same buckets up to order. *)
Theorem classification_depends_on_link_set {order : SetOrder} (n1 n2 : record_node) :
  (forall link,
      link ∈ xpath_texts "856" "u" n1 ++ xpath_texts "FFT" "a" n1
      <-> link ∈ xpath_texts "856" "u" n2 ++ xpath_texts "FFT" "a" n2) ->
  let '(pdf1, xml1, splash1) := get_urls_in_record n1 in
  let '(pdf2, xml2, splash2) := get_urls_in_record n2 in
  pdf1 ≡ₚ pdf2 /\ xml1 ≡ₚ xml2 /\ splash1 ≡ₚ splash2.
Proof.
  intros Hsame. unfold get_urls_in_record.
  rewrite !differentiate_urls_filter.
  repeat split;
    (apply NoDup_Permutation;
     [apply NoDup_filter, list_of_set_NoDup
     |apply NoDup_filter, list_of_set_NoDup
     |intros link; rewrite !list_elem_of_filter, !list_of_set_elem, Hsame; done]).
Qed.

Lemma classification_depends_on_link_set_witness :
  fst (fst (get_urls_in_record (order := gset_order)
              (links_node "856" "u" ["http://x/a.pdf"; "http://x/b.xml"; "http://x/a.pdf"])))
  ≡ₚ fst (fst (get_urls_in_record (order := gset_order)
                 (links_node "FFT" "a" ["http://x/b.xml"; "http://x/a.pdf"]))).
Proof.
  pose proof (classification_depends_on_link_set (order := gset_order)
                (links_node "856" "u" ["http://x/a.pdf"; "http://x/b.xml"; "http://x/a.pdf"])
                (links_node "FFT" "a" ["http://x/b.xml"; "http://x/a.pdf"])) as H.
  destruct (get_urls_in_record
              (links_node "856" "u" ["http://x/a.pdf"; "http://x/b.xml"; "http://x/a.pdf"]))
    as [[pdf1 xml1] splash1].
  destruct (get_urls_in_record
              (links_node "FFT" "a" ["http://x/b.xml"; "http://x/a.pdf"]))
    as [[pdf2 xml2] splash2].
  apply H. intros link.
  assert (E1 : xpath_texts "856" "u"
                 (links_node "856" "u" ["http://x/a.pdf"; "http://x/b.xml"; "http://x/a.pdf"])
               ++ xpath_texts "FFT" "a"
                    (links_node "856" "u" ["http://x/a.pdf"; "http://x/b.xml"; "http://x/a.pdf"])
               = ["http://x/a.pdf"; "http://x/b.xml"; "http://x/a.pdf"])
    by (vm_compute; reflexivity).
  assert (E2 : xpath_texts "856" "u" (links_node "FFT" "a" ["http://x/b.xml"; "http://x/a.pdf"])
               ++ xpath_texts "FFT" "a"
                    (links_node "FFT" "a" ["http://x/b.xml"; "http://x/a.pdf"])
               = ["http://x/b.xml"; "http://x/a.pdf"])
    by (vm_compute; reflexivity).
  rewrite E1, E2, !elem_of_cons, !elem_of_nil. tauto.
Defined.

(** *** The dois *)



Example dois_marker :
  xpath_dois
    {| datafields :=
         [{| df_tag := "024";
             df_subfields := [{| sf_code := "2"; sf_text := ["DOI"] |};
                              {| sf_code := "a"; sf_text := ["10.1155/2016/1"] |}] |};
          {| df_tag := "024";
             df_subfields := [{| sf_code := "2"; sf_text := ["doi"] |};
                              {| sf_code := "a"; sf_text := ["10.1155/2016/2"] |}] |};
          {| df_tag := "024";
             df_subfields := [{| sf_code := "a"; sf_text := ["10.1155/2016/3"] |}] |}] |}
  = ["10.1155/2016/1"].
Proof. reflexivity. Qed.

Lemma example_node_parsed :
  parse_node (order := gset_order) OA_LICENSES_example re_search_anchored example_node
  = Ok example_item.
Proof. vm_compute. reflexivity. Qed.

Lemma collections_and_copyright_witness :
  example_item !! "collections" = Some [PStr "HEP"; PStr "Citeable"; PStr "Published"] /\
  example_item !! "copyright_year" = Some [PStr "2016"].
Proof.
  destruct (collections_and_copyright (order := gset_order) OA_LICENSES_example
              re_search_anchored example_node example_item example_node_parsed)
    as (Hcoll & statement & Hs & _ & Hyear).
  split; [exact Hcoll|].
  injection Hs as <-. exact Hyear.
Defined.

Lemma license_fields_witness :
  example_item !! "license" = Some [PStr "CC-BY-3.0"] /\
  example_item !! "license_url" = None /\
  example_item !! "license_type" = Some [PStr "open-access"].
Proof.
  destruct (license_fields (order := gset_order) OA_LICENSES_example
              re_search_anchored example_node example_item example_node_parsed)
    as (label' & Hl & _ & Hu & Ht).
  assert (label' = "CC-BY-3.0") as ->.
  { assert (H : example_item !! "license" = Some [PStr "CC-BY-3.0"])
      by (vm_compute; reflexivity).
    rewrite Hl in H. by injection H. }
  split; [exact Hl|]. split; [exact Hu|exact Ht].
Defined.

Lemma link_fields_witness :
  example_item !! "urls" = None /\
  example_item !! "file_urls" = Some [PStr "http://x/a.pdf"].
Proof.
  pose proof (link_fields (order := gset_order) OA_LICENSES_example
                re_search_anchored example_node example_item example_node_parsed) as H.
  assert (Hu : get_urls_in_record (order := gset_order) example_node
               = (["http://x/a.pdf"], ["http://x/b.xml"], []))
    by (vm_compute; reflexivity).
  rewrite Hu in H. destruct H as (_ & Hf & Hs & _).
  split; [by apply Hs|exact Hf].
Defined.


End HindawiMore.

(** ** More on the harvest bookkeeping *)

Module OAIPMHMore.

Import OAIPMH OAIPMHFacts.

(** *** Saving, again *)

Lemma open_write_cases (p : string) (c : file_content) (w : world) :
  (exists errno, open_write p c w = (Raise (IOError errno), w)) \/
  (open_write p c w = (Ok tt, with_files w (<[p := c]> (files w))) /\
   io_fault w (OpenWrite p) = None /\ (p ∉ dirs w) /\ (dirname p ∈ dirs w)).
Proof.
  unfold open_write.
  destruct (io_fault w (OpenWrite p)); [by eauto|].
  case_bool_decide; [by eauto|].
  case_bool_decide; [by right|].
  case_bool_decide; eauto.
Qed.

(** What [makedirs] leaves to [open]: the world, with the directory made or
    found, or an error that is not passed over. *)
Lemma save_run_cases (self : spider) (started_at : datetime) (w : world) :
  let p := _last_run_file_path self in
  let info := JsonDoc (last_run_info self started_at (clock w (ticks w))) in
  (exists errno, errno <> FILE_EXISTS /\
                 fst (makedirs (dirname p) (tick w)) = Raise (OSError errno) /\
                 _save_run self started_at w = (Raise (OSError errno), tick w)) \/
  (_save_run self started_at w = open_write p info (tick w) /\
   fst (makedirs (dirname p) (tick w)) = Raise (OSError FILE_EXISTS)) \/
  (_save_run self started_at w
   = open_write p info (with_dirs (tick w) ({[ dirname p ]} ∪ dirs w)) /\
   makedirs (dirname p) (tick w)
   = (Ok tt, with_dirs (tick w) ({[ dirname p ]} ∪ dirs w))).
Proof.
  intros p info. unfold _save_run, utcnow. io_simpl. fold p. fold info.
  destruct (makedirs_cases (dirname p) (tick w)) as [[errno Hmk] | Hmk];
    rewrite Hmk.
  - destruct (errno =? FILE_EXISTS) eqn:He; cbn [negb].
    + apply Z.eqb_eq in He as ->. right. left. by split.
    + apply Z.eqb_neq in He. left. eauto.
  - right. right. by split.
Qed.



(** What a successful save says about the storage it leaves. *)
Lemma save_run_leaves_ready (self : spider) (started_at : datetime) (w w' : world) :
  _save_run self started_at w = (Ok tt, w') ->
  let p := _last_run_file_path self in
  io_fault w' = io_fault w /\
  io_fault w (OpenWrite p) = None /\ (p ∉ dirs w') /\ (dirname p ∈ dirs w') /\
  (fst (makedirs (dirname p) (tick w')) = Raise (OSError FILE_EXISTS)).
Proof.
  intros Hsave p.
  destruct (save_run_cases self started_at w) as [(errno & _ & _ & H) | [[H Hmk] | [H Hmk]]];
    rewrite H in Hsave; [discriminate|..]; fold p in Hsave, Hmk;
    match type of Hsave with
    | open_write ?p ?c ?wm = _ =>
        destruct (open_write_cases p c wm) as [[errno Hw] | (Hw & Hf & Hp & Hd)];
          rewrite Hw in Hsave; [discriminate|]
    end;
    injection Hsave as <-;
    cbn [with_files with_dirs tick files dirs io_fault] in *;
    (split; [done|]); (split; [done|]); (split; [done|]); (split; [done|]).
  - revert Hmk. unfold makedirs. cbn [with_files tick files dirs io_fault].
    destruct (io_fault w (Makedirs (dirname p))); [by intros Hsame|].
    destruct (negb (PyStr.truthy (dirname p))); [discriminate|].
    intros _. by rewrite bool_decide_true.
  - revert Hmk. unfold makedirs. cbn [with_files with_dirs tick files dirs io_fault].
    destruct (io_fault w (Makedirs (dirname p))); [discriminate|].
    destruct (negb (PyStr.truthy (dirname p))); [discriminate|].
    intros _. by rewrite bool_decide_true.
Qed.

(** X12. Saving can be repeated: once a run has been saved, saving again
    under the same path succeeds (the directory is found there and that
    error is passed over) and the file then holds the later run. *)
Theorem save_run_again (a b : spider) (started_a started_b : datetime)
    (w w1 : world) :
  _save_run a started_a w = (Ok tt, w1) ->
  _last_run_file_path b = _last_run_file_path a ->
  exists w2,
    _save_run b started_b w1 = (Ok tt, w2) /\
    files w2 !! _last_run_file_path a
    = Some (JsonDoc (last_run_info b started_b (clock w1 (ticks w1)))) /\
    dirs w2 = dirs w1.
Proof.
  intros Hsave Hpath.
  apply save_run_leaves_ready in Hsave as (Hio & Hf & Hp & Hd & Hmk).
  destruct (save_run_cases b started_b w1)
    as [(errno & Hne & Hmk' & _) | [[H _] | [_ Hmk']]].
  - exfalso. rewrite Hpath, Hmk in Hmk'. by injection Hmk' as <-.
  - rewrite Hpath in H. rewrite H.
    rewrite (open_write_ok _ _ (tick w1));
      [|cbn [tick io_fault]; by rewrite Hio|done|done].
    eexists. split; [reflexivity|]. cbn [with_files tick files dirs].
    split; [apply lookup_insert_eq|reflexivity].
  - rewrite Hpath in Hmk'. rewrite Hmk' in Hmk. discriminate.
Qed.

Lemma first_run_saved :
  _save_run example_spider (example_clock 0)
    (tick (tick (example_world (LRRaise NoRecordsMatch))))
  = (Ok tt, world_after_first_run).
Proof. vm_compute. reflexivity. Qed.



Lemma save_run_again_witness :
  exists w2,
    _save_run spider_with_set_named_None (example_clock 7) world_after_first_run
    = (Ok tt, w2) /\
    dirs w2 = dirs world_after_first_run.
Proof.
  destruct (save_run_again example_spider spider_with_set_named_None
              (example_clock 0) (example_clock 7) _ _ first_run_saved)
    as (w2 & Hsave & _ & Hdirs).
  - vm_compute. reflexivity.
  - exists w2. split; assumption.
Defined.

(** *** Resuming *)

Section Resume.

Context (dateparser_parse : string -> result datetime).

(** X13. The next run resumes where the saved one ended: after a run of
    [a] has been saved, a spider with the same run file and no from_date of
    its own starts from the date of [a]'s until_date if it had one, else
    from the date at which the saving was done. *)
Theorem next_run_resumes (a b : spider) (started_at t : datetime) (w w' : world) :
  _save_run a started_at w = (Ok tt, w') ->
  _last_run_file_path b = _last_run_file_path a ->
  PyStr.truthy_opt (from_date b) = false ->
  io_fault w (OpenRead (_last_run_file_path a)) = None ->
  dateparser_parse (resume_text a (clock w (ticks w))) = Ok t ->
  1900 <= year t ->
  resolve_start_date dateparser_parse b w' = (Ok (Some (date_part t)), w').
Proof.
  intros Hsave Hpath Hfrom Hfault Hparse Hyear.
  apply save_run_ok in Hsave as (Hfiles & Hio & _).
  unfold resolve_start_date. rewrite Hfrom.
  set (info := last_run_info a started_at (clock w (ticks w))).
  assert (Hload : _load_last_run b w' = (Ok info, w')).
  { apply load_after_save; rewrite Hpath.
    - rewrite Hfiles. apply lookup_insert_eq.
    - by rewrite Hio. }
  assert (Huntil : info !! "until_date" = Some (json_opt (until_date a))).
  { unfold info, last_run_info. by simplify_map_eq. }
  assert (Hfin : info !! "last_run_finished_at"
                 = Some (JStr (isoformat (clock w (ticks w))))).
  { unfold info, last_run_info. by simplify_map_eq. }
  apply (resume_from_loaded dateparser_parse b w' info (json_opt (until_date a))
           (JStr (resume_text a (clock w (ticks w)))) t); try done.
  unfold resume_text. destruct (until_date a) as [until|]; simpl; [|done].
  by destruct (PyStr.truthy until).
Qed.

(** X14. A run file that cannot be used stops the harvest before it
    starts, it does not count as "no prior run": a file that is not JSON
    raises a ValueError, a JSON object without until_date a KeyError, and
    so does one whose until_date is empty or null and that has no
    last_run_finished_at. *)
Theorem unusable_run_file_raises (self : spider) (w : world) :
  PyStr.truthy_opt (from_date self) = false ->
  io_fault w (OpenRead (_last_run_file_path self)) = None ->
  (forall raw,
      files w !! _last_run_file_path self = Some (NotJson raw) ->
      exists what, resolve_start_date dateparser_parse self w
                   = (Raise (ValueError what), w)) /\
  (forall doc,
      files w !! _last_run_file_path self = Some (JsonDoc doc) ->
      doc !! "until_date" = None ->
      resolve_start_date dateparser_parse self w
      = (Raise (KeyError "until_date"), w)) /\
  (forall doc until,
      files w !! _last_run_file_path self = Some (JsonDoc doc) ->
      doc !! "until_date" = Some until -> jtruthy until = false ->
      doc !! "last_run_finished_at" = None ->
      resolve_start_date dateparser_parse self w
      = (Raise (KeyError "last_run_finished_at"), w)).
Proof.
  intros Hfrom Hfault. unfold resolve_start_date. rewrite Hfrom.
  split; [|split].
  - intros raw Hfile. eexists.
    unfold _resume_from. io_simpl.
    rewrite (load_last_run_found self w (NotJson raw)).
    + reflexivity.
    + unfold open_read. by rewrite Hfault, Hfile.
  - intros doc Hfile Hno.
    unfold _resume_from. io_simpl.
    rewrite (load_after_save self w doc Hfile Hfault).
    unfold getitem. by rewrite Hno.
  - intros doc until Hfile Huntil Hfalse Hno.
    unfold _resume_from. io_simpl.
    rewrite (load_after_save self w doc Hfile Hfault).
    unfold getitem. by rewrite Huntil, Hfalse, Hno.
Qed.

(** X15. A harvest from the beginning (no start date) is begun only when no
    from_date was given and opening the run file reports that it does not
    exist, given that the date parser does not itself raise
    NoLastRunToLoad. *)
Theorem full_harvest_only_without_run_file (self : spider) (w : world) :
  (forall s p, dateparser_parse s <> Raise (NoLastRunToLoad p)) ->
  fst (resolve_start_date dateparser_parse self w) = Ok None ->
  PyStr.truthy_opt (from_date self) = false /\
  fst (open_read (_last_run_file_path self) w) = Raise (IOError NO_SUCH_FILE_OR_DIR).
Proof.
  intros Hparser. unfold resolve_start_date.
  destruct (PyStr.truthy_opt (from_date self)) eqn:Hfrom.
  { simpl. intros [= Hnone]. by rewrite Hnone in Hfrom. }
  intros Hres. split; [done|].
  revert Hres. unfold _resume_from. io_simpl.
  destruct (open_read_cases (_last_run_file_path self) w) as [[c H]|[errno H]].
  - rewrite (load_last_run_found _ _ _ H).
    destruct c as [doc|raw]; simpl; [|discriminate].
    unfold getitem.
    destruct (doc !! "until_date") as [until|]; [|discriminate].
    destruct (jtruthy until).
    + destruct until as [|s]; simpl; [discriminate|].
      destruct (dateparser_parse s) as [t|e] eqn:Hs; simpl.
      * unfold strftime_Ymd. destruct (_ <? _); discriminate.
      * destruct e; try discriminate. by apply Hparser in Hs.
    + destruct (doc !! "last_run_finished_at") as [fin|]; [|discriminate].
      destruct fin as [|s]; simpl; [discriminate|].
      destruct (dateparser_parse s) as [t|e] eqn:Hs; simpl.
      * unfold strftime_Ymd. destruct (_ <? _); discriminate.
      * destruct e; try discriminate. by apply Hparser in Hs.
  - rewrite (load_last_run_error _ _ _ H). rewrite H. simpl.
    destruct (errno =? NO_SUCH_FILE_OR_DIR) eqn:He.
    + apply Z.eqb_eq in He. by subst.
    + discriminate.
Qed.

(** X16. Until its request is yielded, [start_requests] writes nothing:
    whether it returns or raises, the files and the directories are the
    ones it found, and when it raises nothing else has changed either. *)
Theorem start_requests_begin_writes_nothing (self : spider) (w : world) :
  let '(r, w') := start_requests_begin dateparser_parse self w in
  files w' = files w /\ dirs w' = dirs w /\ io_fault w' = io_fault w /\
  match r with
  | Ok (self', started_at, request) =>
      started_at = clock w (ticks w) /\ request = "oaipmh+" +:+ url self /\
      metadata_prefix self' = metadata_prefix self /\ oai_set self' = oai_set self /\
      until_date self' = until_date self /\
      (PyStr.truthy_opt (from_date self) = true -> from_date self' = from_date self)
  | Raise _ => w' = w
  end.
Proof.
  destruct (start_requests_begin dateparser_parse self w) as [[[[self' st] rq]|e] w'] eqn:H.
  - pose proof H as H'.
    apply start_requests_begin_ok in H' as (from & Hres & -> & -> & ->).
    repeat split; try done.
    + revert H. unfold start_requests_begin, utcnow. io_simpl. rewrite Hres.
      by intros [= <-].
    + intros Htruthy. revert Hres. unfold resolve_start_date. rewrite Htruthy.
      by intros [= <-].
  - apply start_requests_begin_raises in H as ->. done.
Qed.

End Resume.

Lemma next_run_resumes_witness :
  resolve_start_date iso_parse example_spider world_after_first_run
  = (Ok (Some "2017-03-09"), world_after_first_run).
Proof.
  apply (next_run_resumes iso_parse example_spider example_spider
           (example_clock 0) (example_clock 2) _ _ first_run_saved);
    vm_compute; (reflexivity || discriminate).
Defined.

Lemma unusable_run_file_raises_witness :
  exists what,
    resolve_start_date iso_parse example_spider corrupt_world
    = (Raise (ValueError what), corrupt_world).
Proof.
  destruct (unusable_run_file_raises iso_parse example_spider corrupt_world
              eq_refl eq_refl) as (Hraw & _ & _).
  apply (Hraw "{"). vm_compute. reflexivity.
Defined.

Lemma iso_parse_raises_value_error (s p : string) :
  iso_parse s <> Raise (NoLastRunToLoad p).
Proof. unfold iso_parse. cbv zeta. case_match; discriminate. Qed.

Lemma full_harvest_only_without_run_file_witness :
  fst (open_read (_last_run_file_path example_spider)
         (example_world (LRRaise NoRecordsMatch)))
  = Raise (IOError NO_SUCH_FILE_OR_DIR).
Proof.
  apply (full_harvest_only_without_run_file iso_parse example_spider
           (example_world (LRRaise NoRecordsMatch)) iso_parse_raises_value_error).
  vm_compute. reflexivity.
Defined.

(** *** Parsing the listing *)

Section Parse.

Context {Item : Type} {parser : RecordParser Item}.

Lemma parse_records_prefix (records : list string) (failure : option exn)
    (items : list Item) (r : option exn) :
  parse_records records failure = (items, r) ->
  (length items <= length records)%nat /\
  Forall2 (fun record item => parse_record record = Ok item)
          (take (length items) records) items /\
  match records !! length items with
  | Some record => exists e, parse_record record = Raise e /\ r = Some e
  | None => r = failure
  end.
Proof.
  revert items r. induction records as [|record records IH]; intros items r.
  - simpl. intros [= <- <-]. repeat split; [done|constructor].
  - cbn [parse_records].
    destruct (parse_record record) as [item|e] eqn:Hrec.
    + destruct (parse_records records failure) as [items' r'] eqn:Hrest.
      intros [= <- <-].
      destruct (IH items' r' eq_refl) as (Hlen & Hall & Hnext).
      cbn [length take]. repeat split; [lia|by constructor|exact Hnext].
    + intros [= <- <-]. cbn [length take]. repeat split; [lia|constructor|].
      simpl. eauto.
Qed.

(** X17. [parse] gives the records of the listing one by one, in order,
    each as the item that [parse_record] makes of it, and stops at the
    first record that [parse_record] refuses, with that exception; when no
    record is refused all are given and the end is the one of the
    listing. *)
Theorem parse_gives_records_in_order (self : spider) (w : world)
    (records : list string) (failure : option exn) :
  remote w (url self) (metadata_prefix self) (oai_set self)
         (from_date self) (until_date self) = LRIter records failure ->
  let '(items, r) := parse self w in
  (length items <= length records)%nat /\
  Forall2 (fun record item => parse_record record = Ok item)
          (take (length items) records) items /\
  match records !! length items with
  | Some record => exists e, parse_record record = Raise e /\ r = Some e
  | None => r = failure
  end.
Proof.
  intros Hresp. unfold parse. rewrite Hresp.
  destruct (parse_records records failure) as [items r] eqn:H.
  by apply parse_records_prefix.
Qed.

(** X18. A [parse] that ends without exception has made an item of every
    record of the listing: either the server had no matching record and
    there is no item, or the listing ended well and the items are its
    records, parsed, in order. *)
Theorem parse_complete (self : spider) (w : world) (items : list Item) :
  parse self w = (items, None) ->
  match remote w (url self) (metadata_prefix self) (oai_set self)
               (from_date self) (until_date self) with
  | LRRaise e => e = NoRecordsMatch /\ items = []
  | LRIter records failure =>
      failure = None /\
      Forall2 (fun record item => parse_record record = Ok item) records items
  end.
Proof.
  unfold parse.
  destruct (remote w _ _ _ _ _) as [e|records failure].
  - destruct e; intros [= <-]; done.
  - intros H. apply parse_records_prefix in H as (Hlen & Hall & Hnext).
    destruct (records !! length items) as [record|] eqn:Hl.
    + destruct Hnext as (e & _ & [=]).
    + split; [done|].
      apply lookup_ge_None in Hl.
      by rewrite take_ge in Hall by lia.
Qed.

End Parse.

Lemma parse_gives_records_in_order_witness :
  let '(items, r) :=
    parse (parser := picky_parser) example_spider
          (example_world (LRIter ["<a/>"; ""; "<b/>"] None)) in
  (length items <= 3)%nat /\
  Forall2 (fun record item => parse_record (RecordParser := picky_parser) record = Ok item)
          (take (length items) ["<a/>"; ""; "<b/>"]) items /\
  match ["<a/>"; ""; "<b/>"] !! length items with
  | Some record =>
      exists e, parse_record (RecordParser := picky_parser) record = Raise e /\ r = Some e
  | None => r = None
  end.
Proof.
  exact (parse_gives_records_in_order (parser := picky_parser) example_spider
           (example_world (LRIter ["<a/>"; ""; "<b/>"] None))
           ["<a/>"; ""; "<b/>"] None eq_refl).
Defined.

Lemma parse_complete_witness :
  Forall2 (fun record item => parse_record (RecordParser := picky_parser) record = Ok item)
          ["<a/>"; "<b/>"] ["<a/>"; "<b/>"].
Proof.
  pose proof (parse_complete (parser := picky_parser) example_spider
                (example_world (LRIter ["<a/>"; "<b/>"] None))
                ["<a/>"; "<b/>"] eq_refl) as H.
  exact (proj2 H).
Defined.

(** *** Where the run file is *)

Lemma hex_length (n : nat) (x : Z) : String.length (SHA1.hex n x) = n.
Proof. induction n as [|n IH]; simpl; [done|]. by rewrite IH. Qed.

Lemma has_char_append (c : ascii) (a b : string) :
  PyStr.has_char c (a +:+ b) = PyStr.has_char c a || PyStr.has_char c b.
Proof.
  induction a as [|x a IH]; [reflexivity|].
  rewrite append_cons. simpl. by rewrite IH, orb_assoc.
Qed.

Lemma hex_no_slash (n : nat) (x : Z) : PyStr.has_char "/" (SHA1.hex n x) = false.
Proof.
  induction n as [|n IH]; [reflexivity|].
  cbn [SHA1.hex PyStr.has_char]. rewrite IH, orb_false_r.
  apply Ascii.eqb_neq. intros E. symmetry in E. by apply hex_digit_not_slash in E.
Qed.

Lemma list_ascii_append (a b : string) :
  list_ascii_of_string (a +:+ b) = list_ascii_of_string a ++ list_ascii_of_string b.
Proof.
  induction a as [|x a IH]; [reflexivity|].
  rewrite append_cons. simpl. by rewrite IH.
Qed.

Lemma drop_while_app_all {A : Type} (f : A -> bool) (l k : list A) :
  forallb f l = true -> drop_while f (l ++ k) = drop_while f k.
Proof.
  induction l as [|x l IH]; [done|]. simpl.
  intros [Hx Hl]%andb_prop. rewrite Hx. by apply IH.
Qed.

Lemma no_slash_forallb (s : string) :
  PyStr.has_char "/" s = false ->
  forallb (fun c => negb (is_slash c)) (rev (list_ascii_of_string s)) = true.
Proof.
  intros H. apply forallb_forall. intros c Hc. apply in_rev in Hc.
  induction s as [|x s IH]; [done|].
  cbn [PyStr.has_char] in H. apply orb_false_elim in H as [Hx Hs].
  destruct Hc as [<- | Hc]; [|by apply IH].
  unfold is_slash. by rewrite Ascii.eqb_sym, Hx.
Qed.

(** A last component without slash does not count for [dirname]. *)
Lemma dirname_append (base file : string) :
  PyStr.has_char "/" file = false -> dirname (base +:+ file) = dirname base.
Proof.
  intros H. unfold dirname.
  rewrite list_ascii_append, rev_app_distr.
  by rewrite drop_while_app_all by (by apply no_slash_forallb).
Qed.

(** X19. The run file is a name of 40 characters without slash, followed
    by [.json], right under the join of the root and the spider name; so
    its directory does not depend on the alias, and the runs of all the
    aliases of one spider are side by side. *)
Theorem run_file_location (self : spider) :
  let dir := join_base (join2 (LAST_RUNS_PATH self) (name self)) in
  (exists digest,
      _last_run_file_path self = dir +:+ digest +:+ ".json" /\
      String.length digest = 40%nat /\ PyStr.has_char "/" digest = false) /\
  dirname (_last_run_file_path self) = dirname dir /\
  (forall other,
      LAST_RUNS_PATH other = LAST_RUNS_PATH self -> name other = name self ->
      dirname (_last_run_file_path other) = dirname (_last_run_file_path self)).
Proof.
  intros dir.
  assert (Hshape : forall s : spider,
             _last_run_file_path s
             = join_base (join2 (LAST_RUNS_PATH s) (name s))
                 +:+ SHA1.hexdigest (_make_alias s) +:+ ".json").
  { intros s. unfold _last_run_file_path, path_join.
    apply join2_relative, file_name_no_leading_slash. }
  assert (Hdigest : forall s, String.length (SHA1.hexdigest s) = 40%nat /\
                              PyStr.has_char "/" (SHA1.hexdigest s) = false).
  { intros s. unfold SHA1.hexdigest.
    destruct (SHA1.digest s) as [[[[h0 h1] h2] h3] h4].
    rewrite !length_append, !has_char_append, !hex_length, !hex_no_slash. done. }
  assert (Hdir : forall s : spider,
             dirname (_last_run_file_path s)
             = dirname (join_base (join2 (LAST_RUNS_PATH s) (name s)))).
  { intros s. rewrite Hshape. apply dirname_append.
    rewrite has_char_append. by rewrite (proj2 (Hdigest _)). }
  split; [|split].
  - exists (SHA1.hexdigest (_make_alias self)).
    split; [apply Hshape|apply Hdigest].
  - apply Hdir.
  - intros other Hroot Hname. by rewrite !Hdir, Hroot, Hname.
Qed.

End OAIPMHMore.
